(** * Empress RAG API: the FastAPI gateway of [fastapi_app.py]

    A shallow embedding of the gateway: Python values and the heap of mutable
    objects the pipeline hands back, exceptions with the one class test the
    source performs ([except Exception]), a state-and-exception monad for the
    handler bodies, the Pydantic request and response models, the six route
    handlers, and FastAPI's request handling around them.

    The module [rag_pipeline] and the libraries (Pydantic, FastAPI/Starlette)
    are not part of the repository.  The four pipeline functions are taken as
    a parameter ([RagPipeline]); the library behaviour that varies between
    releases is taken as a parameter too ([Libraries]). *)

From Stdlib Require Import ZArith Ascii.
From stdpp Require Import gmap strings list fin_maps pretty.

Set Warnings "-register-all".

Local Open Scope Z_scope.
Local Open Scope string_scope.

(** ** Python values *)

(** Immutable scalars.  A text is the [string] of its UTF-8 bytes; a Python
    text with a lone surrogate has no such string and is not a value of the
    model. *)
Inductive Atom :=
| ANone
| ABool (b : bool)
| AInt (n : Z)
| AStr (s : string).

(** A value is a scalar or a reference to a mutable object on the heap. *)
Inductive PyVal :=
| VAtom (a : Atom)
| VRef (l : nat).

(** Heap objects: a [dict] with [str] keys, a [list], or an instance of some
    class [cls] that has neither [__getitem__] nor [__len__] nor [get]
    (a retrieved document, for one).  Numbers other than [int] and containers
    other than these two are left out. *)
Inductive PyObj :=
| ODict (d : gmap string PyVal)
| OList (xs : list PyVal)
| OInstance (cls : string).

Abbreviation Heap := (gmap nat PyObj).

(** A location the heap does not bind stands for an object of a class the
    model does not describe. *)
Definition obj_at (h : Heap) (l : nat) : PyObj :=
  default (OInstance "object") (h !! l).

Definition atom_type_name (a : Atom) : string :=
  match a with
  | ANone => "NoneType"
  | ABool _ => "bool"
  | AInt _ => "int"
  | AStr _ => "str"
  end.

Definition obj_type_name (o : PyObj) : string :=
  match o with
  | ODict _ => "dict"
  | OList _ => "list"
  | OInstance cls => cls
  end.

Definition type_name (h : Heap) (v : PyVal) : string :=
  match v with
  | VAtom a => atom_type_name a
  | VRef l => obj_type_name (obj_at h l)
  end.

(** JSON documents: request bodies after decoding, response bodies before
    encoding.  An object keeps its members in order. *)
Inductive Json :=
| JAtom (a : Atom)
| JList (xs : list Json)
| JObj (members : list (string * Json)).

(** [json.loads] keeps the last of several members with one name. *)
Fixpoint json_member (key : string) (members : list (string * Json)) : option Json :=
  match members with
  | [] => None
  | (k, v) :: rest =>
      match json_member key rest with
      | Some w => Some w
      | None => if decide (k = key) then Some v else None
      end
  end.

Definition json_keys (j : Json) : list string :=
  match j with
  | JObj members => members.*1
  | _ => []
  end.

Definition json_get (key : string) (j : Json) : option Json :=
  match j with
  | JObj members => json_member key members
  | _ => None
  end.

(** The number of characters (code points) of a text: every byte of its
    UTF-8 encoding but the continuation bytes, [0x80] to [0xBF]. *)
Definition is_continuation_byte (c : Ascii.ascii) : bool :=
  match c with
  | Ascii.Ascii _ _ _ _ _ _ b6 b7 => b7 && negb b6
  end.

Fixpoint text_length (s : string) : nat :=
  match s with
  | String c rest =>
      if is_continuation_byte c then text_length rest else S (text_length rest)
  | EmptyString => 0%nat
  end.

(** [repr] of a text.  The text goes between apostrophes, or between double
    quotes when it has an apostrophe and no double quote; the backslash, the
    enclosing quote and the ASCII control characters are escaped.  The
    characters outside ASCII are taken to be printable and left as they
    are. *)
Fixpoint string_has (c : Ascii.ascii) (s : string) : bool :=
  match s with
  | String c' rest => bool_decide (c = c') || string_has c rest
  | EmptyString => false
  end.

Definition hex_digit (n : N) : Ascii.ascii :=
  match n with
  | 0 => "0" | 1 => "1" | 2 => "2" | 3 => "3" | 4 => "4" | 5 => "5" | 6 => "6"
  | 7 => "7" | 8 => "8" | 9 => "9" | 10 => "a" | 11 => "b" | 12 => "c"
  | 13 => "d" | 14 => "e" | _ => "f"
  end%char%N.

Definition repr_char (quote c : Ascii.ascii) : string :=
  if bool_decide (c = quote) || bool_decide (c = "\"%char) then
    String "\" (String c EmptyString)
  else if bool_decide (c = "010"%char) then "\n"
  else if bool_decide (c = "013"%char) then "\r"
  else if bool_decide (c = "009"%char) then "\t"
  else
    let n := Ascii.N_of_ascii c in
    if ((n <? 32) || (n =? 127))%N then
      String "\" (String "x" (String (hex_digit (n `div` 16))
                                 (String (hex_digit (n `mod` 16)) EmptyString)))
    else String c EmptyString.

Fixpoint repr_chars (quote : Ascii.ascii) (s : string) : string :=
  match s with
  | String c rest => repr_char quote c +:+ repr_chars quote rest
  | EmptyString => EmptyString
  end.

Definition py_repr (s : string) : string :=
  let quote : Ascii.ascii :=
    if string_has "'" s && negb (string_has "034"%char s) then "034"%char else "'"%char in
  String quote (repr_chars quote s +:+ String quote EmptyString).

(** ** Exceptions *)

(** An exception with what [str()] makes of it; [str()] of an exception is
    taken to return. *)
Inductive PyExc :=
| KeyError (key : string)
| TypeError (msg : string)
| AttributeError (msg : string)
| ValidationError (msg : string)
| HTTPException (status_code : Z) (detail : string)
| OtherException (cls msg : string)
| BaseExceptionOnly (cls msg : string).

(** [isinstance(e, Exception)].  [BaseExceptionOnly] stands for the classes
    that derive from [BaseException] and not from [Exception]: [SystemExit],
    [KeyboardInterrupt], [GeneratorExit]. *)
Definition isinstance_Exception (e : PyExc) : bool :=
  match e with
  | BaseExceptionOnly _ _ => false
  | _ => true
  end.

(** ** Library behaviour taken as a parameter *)

Class Libraries := {
  (** Pydantic's validator of a [str] field, on a scalar. *)
  validate_str : Atom → option string;
  validate_str_str : ∀ s, validate_str (AStr s) = Some s;
  (** [str()] of the [ValidationError] of a model, from the model's name, the
      rejected fields with their inputs, and the heap the inputs live in. *)
  validation_error_str : string → list (string * PyVal) → Heap → string;
  (** The [detail] of the 422 response to a body the request model rejects. *)
  request_validation_errors : string → Json → Json;
  (** [str()] of Starlette's [HTTPException]. *)
  http_exception_str : Z → string → string
}.

(** [str(e)].  For [KeyError] it is the [repr] of the key. *)
Definition py_str `{Libraries} (e : PyExc) : string :=
  match e with
  | KeyError key => py_repr key
  | TypeError msg => msg
  | AttributeError msg => msg
  | ValidationError msg => msg
  | HTTPException status_code detail => http_exception_str status_code detail
  | OtherException _ msg => msg
  | BaseExceptionOnly _ msg => msg
  end.

(** ** The state-and-exception monad of the handler bodies *)

(** One entry per invocation of a pipeline function. *)
Inductive Call :=
| Call_chatbot_qa (query : string)
| Call_doctor_symptoms_matching (symptoms : string)
| Call_affirmation_recommendation (categories : list string)
| Call_product_recommendation (user_input : string).

Record State := mkState {
  heap : Heap;
  calls : list Call
}.

Inductive Outcome (A : Type) :=
| Returns (a : A)
| Raises (e : PyExc).
Arguments Returns {A} a.
Arguments Raises {A} e.

Definition M (A : Type) : Type := State → Outcome A * State.

Definition ret {A} (a : A) : M A := λ st, (Returns a, st).

Definition raise {A} (e : PyExc) : M A := λ st, (Raises e, st).

Definition bind {A B} (m : M A) (k : A → M B) : M B :=
  λ st,
    match m st with
    | (Returns a, st') => k a st'
    | (Raises e, st') => (Raises e, st')
    end.

Notation "x <- m ;; k" := (bind m (λ x, k))
  (at level 100, m at next level, right associativity,
   format "'[v' x  <-  m  ;; '/' k ']'").

(** [try: body  except Exception as e: handler] *)
Definition try_except_Exception {A} (body : M A) (handler : PyExc → M A) : M A :=
  λ st,
    match body st with
    | (Returns a, st') => (Returns a, st')
    | (Raises e, st') =>
        if isinstance_Exception e then handler e st' else (Raises e, st')
    end.

(** The external pipeline: four functions that may read and change the heap,
    and return a value or raise. *)
Record RagPipeline := {
  chatbot_qa : string → Heap → Outcome PyVal * Heap;
  doctor_symptoms_matching : string → Heap → Outcome PyVal * Heap;
  affirmation_recommendation : list string → Heap → Outcome PyVal * Heap;
  product_recommendation : string → Heap → Outcome PyVal * Heap
}.

(** Invoking a pipeline function: the call is logged, then the function runs
    on the heap. *)
Definition call_pipeline (c : Call) (f : Heap → Outcome PyVal * Heap) : M PyVal :=
  λ st,
    let '(o, h') := f (heap st) in
    (o, {| heap := h'; calls := calls st ++ [c] |}).

(** ** Python operations the handlers use *)

(** [v[key]] with a [str] key.  The messages of [TypeError] are worded as
    CPython 3.11 and later word them. *)
Definition py_getitem (v : PyVal) (key : string) : M PyVal :=
  λ st,
    match v with
    | VAtom (AStr _) =>
        (Raises (TypeError "string indices must be integers, not 'str'"), st)
    | VAtom a =>
        (Raises (TypeError ("'" +:+ atom_type_name a +:+ "' object is not subscriptable")), st)
    | VRef l =>
        match obj_at (heap st) l with
        | ODict d =>
            match d !! key with
            | Some x => (Returns x, st)
            | None => (Raises (KeyError key), st)
            end
        | OList _ =>
            (Raises (TypeError "list indices must be integers or slices, not str"), st)
        | OInstance cls =>
            (Raises (TypeError ("'" +:+ cls +:+ "' object is not subscriptable")), st)
        end
    end.

(** The empty list display [[]]: a new object at a location the heap does not
    bind.  (A reference to such a location does not exist in a running
    program; the properties bind the locations they speak of.) *)
Definition new_list (xs : list PyVal) : M PyVal :=
  λ st,
    let l := fresh (dom (heap st)) in
    (Returns (VRef l), {| heap := <[l := OList xs]> (heap st); calls := calls st |}).

(** [v.get(key, default)]: the attribute is looked up first, then the default
    is evaluated, then the method runs.  Only a [dict] has the method. *)
Definition no_attribute_get (h : Heap) (v : PyVal) : PyExc :=
  AttributeError ("'" +:+ type_name h v +:+ "' object has no attribute 'get'").

Definition py_getattr_get (v : PyVal) : M unit :=
  λ st,
    match v with
    | VRef l =>
        match obj_at (heap st) l with
        | ODict _ => (Returns tt, st)
        | _ => (Raises (no_attribute_get (heap st) v), st)
        end
    | VAtom _ => (Raises (no_attribute_get (heap st) v), st)
    end.

Definition dict_get (v : PyVal) (key : string) (dflt : PyVal) : M PyVal :=
  λ st,
    match v with
    | VRef l =>
        match obj_at (heap st) l with
        | ODict d => (Returns (default dflt (d !! key)), st)
        | _ => (Raises (no_attribute_get (heap st) v), st)
        end
    | VAtom _ => (Raises (no_attribute_get (heap st) v), st)
    end.

Definition py_get (v : PyVal) (key : string) (default_expr : M PyVal) : M PyVal :=
  _ <- py_getattr_get v ;;
  dflt <- default_expr ;;
  dict_get v key dflt.

(** [len(v)] *)
Definition py_len (v : PyVal) : M Z :=
  λ st,
    match v with
    | VAtom (AStr s) => (Returns (Z.of_nat (text_length s)), st)
    | VAtom a =>
        (Raises (TypeError ("object of type '" +:+ atom_type_name a +:+ "' has no len()")), st)
    | VRef l =>
        match obj_at (heap st) l with
        | ODict d => (Returns (Z.of_nat (size d)), st)
        | OList xs => (Returns (Z.of_nat (length xs)), st)
        | OInstance cls =>
            (Raises (TypeError ("object of type '" +:+ cls +:+ "' has no len()")), st)
        end
    end.

(** ** Pydantic models *)

Definition validate_str_val `{Libraries} (v : PyVal) : option string :=
  match v with
  | VAtom a => validate_str a
  | VRef _ => None
  end.

(** A [List[str]] field accepts a [list] whose items all validate as [str];
    the validated field is a new list. *)
Definition validate_list_str `{Libraries} (h : Heap) (v : PyVal) : option (list string) :=
  match v with
  | VRef l =>
      match obj_at h l with
      | OList xs => mapM validate_str_val xs
      | _ => None
      end
  | VAtom _ => None
  end.

Definition validate_str_json `{Libraries} (j : Json) : option string :=
  match j with
  | JAtom a => validate_str a
  | _ => None
  end.

Definition validate_list_str_json `{Libraries} (j : Json) : option (list string) :=
  match j with
  | JList xs => mapM validate_str_json xs
  | _ => None
  end.

Definition json_str (s : string) : Json := JAtom (AStr s).
Definition json_int (n : Z) : Json := JAtom (AInt n).

(** Request models.  [parse] is the validation of a decoded JSON body: the
    body is an object and the required field validates; other members are
    ignored. *)
Module QARequest.
Record t := { query : string }.
Definition parse `{Libraries} (body : Json) : option t :=
  j ← json_get "query" body; s ← validate_str_json j; Some {| query := s |}.
End QARequest.

Module DoctorMatchingRequest.
Record t := { symptoms : string }.
Definition parse `{Libraries} (body : Json) : option t :=
  j ← json_get "symptoms" body; s ← validate_str_json j; Some {| symptoms := s |}.
End DoctorMatchingRequest.

Module AffirmationRequest.
Record t := { categories : list string }.
Definition parse `{Libraries} (body : Json) : option t :=
  j ← json_get "categories" body; l ← validate_list_str_json j;
  Some {| categories := l |}.
End AffirmationRequest.

Module ProductRecommendationRequest.
Record t := { user_input : string }.
Definition parse `{Libraries} (body : Json) : option t :=
  j ← json_get "user_input" body; s ← validate_str_json j;
  Some {| user_input := s |}.
End ProductRecommendationRequest.

(** Response models.  [new] is the constructor call: it validates the keyword
    arguments and raises [ValidationError] naming every rejected field.  The
    count is the [int] that [len] returned; an [int] field takes it as it is.
    [dump] is the JSON object FastAPI sends for the model. *)
Definition rejected {A} (field : string) (input : PyVal) (o : option A)
  : list (string * PyVal) :=
  match o with
  | Some _ => []
  | None => [(field, input)]
  end.

Module QAResponse.
Record t := { response : string; retrieved_documents_count : Z }.
Definition new `{Libraries} (response_arg : PyVal) (count_arg : Z) : M t :=
  λ st,
    match validate_str_val response_arg with
    | Some s =>
        (Returns {| response := s; retrieved_documents_count := count_arg |}, st)
    | None =>
        (Raises (ValidationError
           (validation_error_str "QAResponse" [("response", response_arg)] (heap st))), st)
    end.
Definition dump (r : t) : Json :=
  JObj [("response", json_str (response r));
        ("retrieved_documents_count", json_int (retrieved_documents_count r))].
End QAResponse.

Module DoctorMatchingResponse.
Record t := { response : string; retrieved_documents_count : Z }.
Definition new `{Libraries} (response_arg : PyVal) (count_arg : Z) : M t :=
  λ st,
    match validate_str_val response_arg with
    | Some s =>
        (Returns {| response := s; retrieved_documents_count := count_arg |}, st)
    | None =>
        (Raises (ValidationError
           (validation_error_str "DoctorMatchingResponse"
              [("response", response_arg)] (heap st))), st)
    end.
Definition dump (r : t) : Json :=
  JObj [("response", json_str (response r));
        ("retrieved_documents_count", json_int (retrieved_documents_count r))].
End DoctorMatchingResponse.

Module AffirmationResponse.
Record t := {
  response : string;
  affirmations : list string;
  retrieved_documents_count : Z
}.
Definition new `{Libraries} (response_arg affirmations_arg : PyVal) (count_arg : Z)
  : M t :=
  λ st,
    match validate_str_val response_arg,
          validate_list_str (heap st) affirmations_arg with
    | Some s, Some l =>
        (Returns {| response := s; affirmations := l;
                    retrieved_documents_count := count_arg |}, st)
    | o1, o2 =>
        (Raises (ValidationError
           (validation_error_str "AffirmationResponse"
              (rejected "response" response_arg o1 ++
               rejected "affirmations" affirmations_arg o2) (heap st))), st)
    end.
Definition dump (r : t) : Json :=
  JObj [("response", json_str (response r));
        ("affirmations", JList (json_str <$> affirmations r));
        ("retrieved_documents_count", json_int (retrieved_documents_count r))].
End AffirmationResponse.

Module ProductRecommendationResponse.
Record t := {
  response : string;
  products : list string;
  retrieved_documents_count : Z
}.
Definition new `{Libraries} (response_arg products_arg : PyVal) (count_arg : Z)
  : M t :=
  λ st,
    match validate_str_val response_arg,
          validate_list_str (heap st) products_arg with
    | Some s, Some l =>
        (Returns {| response := s; products := l;
                    retrieved_documents_count := count_arg |}, st)
    | o1, o2 =>
        (Raises (ValidationError
           (validation_error_str "ProductRecommendationResponse"
              (rejected "response" response_arg o1 ++
               rejected "products" products_arg o2) (heap st))), st)
    end.
Definition dump (r : t) : Json :=
  JObj [("response", json_str (response r));
        ("products", JList (json_str <$> products r));
        ("retrieved_documents_count", json_int (retrieved_documents_count r))].
End ProductRecommendationResponse.

(** ** The route handlers *)

Section Handlers.
Context `{Libraries} (P : RagPipeline).

(** [@app.get("/")] *)
Definition root : M Json :=
  ret (JObj
    [("message", json_str "Welcome to the Empress RAG API");
     ("endpoints", JObj
        [("/qa",
          json_str "Q&A Chatbot - answers questions based on the knowledge base");
         ("/doctor-matching",
          json_str "Doctor Symptoms Matching - matches symptoms to doctors");
         ("/affirmations",
          json_str "Affirmation Recommendation - suggests affirmations based on categories");
         ("/product-recommendations",
          json_str "Product Recommendation - recommends products based on user input")])]).

(** [@app.post("/qa", response_model=QAResponse)] *)
Definition qa_endpoint (request : QARequest.t) : M QAResponse.t :=
  try_except_Exception
    (result <- call_pipeline (Call_chatbot_qa (QARequest.query request))
                 (chatbot_qa P (QARequest.query request)) ;;
     response <- py_getitem result "response" ;;
     documents <- py_getitem result "retrieved_documents" ;;
     count <- py_len documents ;;
     QAResponse.new response count)
    (λ e, raise (HTTPException 500
                   ("Error processing Q&A request: " +:+ py_str e))).

(** [@app.post("/doctor-matching", response_model=DoctorMatchingResponse)] *)
Definition doctor_matching_endpoint (request : DoctorMatchingRequest.t)
  : M DoctorMatchingResponse.t :=
  try_except_Exception
    (result <- call_pipeline
                 (Call_doctor_symptoms_matching (DoctorMatchingRequest.symptoms request))
                 (doctor_symptoms_matching P (DoctorMatchingRequest.symptoms request)) ;;
     response <- py_getitem result "response" ;;
     documents <- py_getitem result "retrieved_documents" ;;
     count <- py_len documents ;;
     DoctorMatchingResponse.new response count)
    (λ e, raise (HTTPException 500
                   ("Error processing doctor matching request: " +:+ py_str e))).

(** [@app.post("/affirmations", response_model=AffirmationResponse)] *)
Definition affirmations_endpoint (request : AffirmationRequest.t)
  : M AffirmationResponse.t :=
  try_except_Exception
    (result <- call_pipeline
                 (Call_affirmation_recommendation (AffirmationRequest.categories request))
                 (affirmation_recommendation P (AffirmationRequest.categories request)) ;;
     response <- py_getitem result "response" ;;
     affirmations <- py_get result "affirmations" (new_list []) ;;
     documents <- py_getitem result "retrieved_documents" ;;
     count <- py_len documents ;;
     AffirmationResponse.new response affirmations count)
    (λ e, raise (HTTPException 500
                   ("Error processing affirmation request: " +:+ py_str e))).

(** [@app.post("/product-recommendations",
               response_model=ProductRecommendationResponse)] *)
Definition product_recommendations_endpoint (request : ProductRecommendationRequest.t)
  : M ProductRecommendationResponse.t :=
  try_except_Exception
    (result <- call_pipeline
                 (Call_product_recommendation
                    (ProductRecommendationRequest.user_input request))
                 (product_recommendation P
                    (ProductRecommendationRequest.user_input request)) ;;
     response <- py_getitem result "response" ;;
     products <- py_get result "products" (new_list []) ;;
     documents <- py_getitem result "retrieved_documents" ;;
     count <- py_len documents ;;
     ProductRecommendationResponse.new response products count)
    (λ e, raise (HTTPException 500
                   ("Error processing product recommendation request: " +:+ py_str e))).

(** [@app.get("/health")] *)
Definition health_check : M Json :=
  ret (JObj [("status", json_str "healthy");
             ("message", json_str "Empress RAG API is running")]).

(** ** FastAPI around a handler *)

(** What the application makes of one request.  [ServerError e]: an
    [Exception] no handler took; Starlette answers 500 "Internal Server Error"
    and re-raises [e] to the server.  [Propagated e]: an exception that is not
    an [Exception] leaves the application, which has made no response. *)
Inductive HttpResult :=
| HttpResponse (status : Z) (body : Json)
| ServerError (e : PyExc)
| Propagated (e : PyExc).

Definition detail_body (detail : Json) : Json := JObj [("detail", detail)].

(** The application registers no exception handler of its own, so the
    defaults apply: an [HTTPException] becomes a response with its status
    and [{"detail": detail}].  A returned model is encoded as JSON after the
    handler has returned, outside its [try] block.  The encoding has no
    failure here because every value of the model has one: a model is made
    of texts and an integer, and the one text JSON cannot encode, a text with
    a lone surrogate, is not a value of the model (see [Atom]).  In the
    program such a text ends in the server error. *)
Definition respond {A} (dump : A → Json) (o : Outcome A) : HttpResult :=
  match o with
  | Returns a => HttpResponse 200 (dump a)
  | Raises (HTTPException status_code detail) =>
      HttpResponse status_code (detail_body (json_str detail))
  | Raises e => if isinstance_Exception e then ServerError e else Propagated e
  end.

(** A route whose handler takes one Pydantic model as the body, from the
    decoded body on: the body is validated first; a rejected body is answered
    422 and the handler does not run.  The step before, reading and decoding
    the bytes of the request, is [receive]. *)
Definition fastapi_post {Req Resp} (model : string) (parse : Json → option Req)
    (endpoint : Req → M Resp) (dump : Resp → Json) (body : Json)
  : State → HttpResult * State :=
  λ st,
    match parse body with
    | None =>
        (HttpResponse 422 (detail_body (request_validation_errors model body)), st)
    | Some request =>
        let '(o, st') := endpoint request st in (respond dump o, st')
    end.

Definition fastapi_get (endpoint : M Json) : State → HttpResult * State :=
  λ st, let '(o, st') := endpoint st in (respond id o, st').

(** ** The application's routes *)

Inductive Endpoint := Qa | DoctorMatching | Affirmations | ProductRecommendations.

Definition path (ep : Endpoint) : string :=
  match ep with
  | Qa => "/qa"
  | DoctorMatching => "/doctor-matching"
  | Affirmations => "/affirmations"
  | ProductRecommendations => "/product-recommendations"
  end.

Definition post (ep : Endpoint) : Json → State → HttpResult * State :=
  match ep with
  | Qa => fastapi_post "QARequest" QARequest.parse qa_endpoint QAResponse.dump
  | DoctorMatching =>
      fastapi_post "DoctorMatchingRequest" DoctorMatchingRequest.parse
        doctor_matching_endpoint DoctorMatchingResponse.dump
  | Affirmations =>
      fastapi_post "AffirmationRequest" AffirmationRequest.parse
        affirmations_endpoint AffirmationResponse.dump
  | ProductRecommendations =>
      fastapi_post "ProductRecommendationRequest" ProductRecommendationRequest.parse
        product_recommendations_endpoint ProductRecommendationResponse.dump
  end.

Definition get_root : State → HttpResult * State := fastapi_get root.
Definition get_health : State → HttpResult * State := fastapi_get health_check.

(** The message each handler puts before [str(e)]. *)
Definition error_prefix (ep : Endpoint) : string :=
  match ep with
  | Qa => "Error processing Q&A request: "
  | DoctorMatching => "Error processing doctor matching request: "
  | Affirmations => "Error processing affirmation request: "
  | ProductRecommendations => "Error processing product recommendation request: "
  end.

(** The pipeline invocation of an endpoint on a body its request model
    accepts: the log entry and the function applied to the validated field. *)
Definition pipeline_call (ep : Endpoint) (body : Json)
  : option (Call * (Heap → Outcome PyVal * Heap)) :=
  match ep with
  | Qa =>
      r ← QARequest.parse body;
      Some (Call_chatbot_qa (QARequest.query r), chatbot_qa P (QARequest.query r))
  | DoctorMatching =>
      r ← DoctorMatchingRequest.parse body;
      Some (Call_doctor_symptoms_matching (DoctorMatchingRequest.symptoms r),
            doctor_symptoms_matching P (DoctorMatchingRequest.symptoms r))
  | Affirmations =>
      r ← AffirmationRequest.parse body;
      Some (Call_affirmation_recommendation (AffirmationRequest.categories r),
            affirmation_recommendation P (AffirmationRequest.categories r))
  | ProductRecommendations =>
      r ← ProductRecommendationRequest.parse body;
      Some (Call_product_recommendation (ProductRecommendationRequest.user_input r),
            product_recommendation P (ProductRecommendationRequest.user_input r))
  end.

End Handlers.

(** The body of a request as it arrives: bytes FastAPI cannot read as the
    text of a document, or a decoded document.  (A text that is no JSON
    document is answered 422, as a rejected body is; it is left out.) *)
Inductive RequestBody :=
| Unreadable
| Decoded (body : Json).

(** FastAPI answers 400 to a body it cannot read, before validation and
    handler. *)
Definition receive `{Libraries} (P : RagPipeline) (ep : Endpoint) (rb : RequestBody)
  : State → HttpResult * State :=
  λ st,
    match rb with
    | Unreadable =>
        (HttpResponse 400
           (detail_body (json_str "There was an error parsing the body")), st)
    | Decoded body => post P ep body st
    end.

(** Starlette's router over the six routes this file registers, on a decoded
    body: a path that is none of them is 404, one of them with another method
    is 405.  The routes FastAPI adds by itself ([/openapi.json], [/docs],
    [/redoc]) and its redirect of a path with a trailing slash are not
    modelled; none of them runs a handler of this file. *)
Inductive Method := GET | POST.

Definition not_found : HttpResult := HttpResponse 404 (detail_body (json_str "Not Found")).
Definition method_not_allowed : HttpResult :=
  HttpResponse 405 (detail_body (json_str "Method Not Allowed")).

Definition endpoint_of_path (url : string) : option Endpoint :=
  if decide (url = "/qa") then Some Qa
  else if decide (url = "/doctor-matching") then Some DoctorMatching
  else if decide (url = "/affirmations") then Some Affirmations
  else if decide (url = "/product-recommendations") then Some ProductRecommendations
  else None.

Definition app `{Libraries} (P : RagPipeline) (method : Method) (url : string)
    (body : Json) : State → HttpResult * State :=
  λ st,
    match method with
    | GET =>
        if decide (url = "/") then get_root st
        else if decide (url = "/health") then get_health st
        else match endpoint_of_path url with
             | Some _ => (method_not_allowed, st)
             | None => (not_found, st)
             end
    | POST =>
        match endpoint_of_path url with
        | Some ep => post P ep body st
        | None =>
            if decide (url = "/") then (method_not_allowed, st)
            else if decide (url = "/health") then (method_not_allowed, st)
            else (not_found, st)
        end
    end.

(** ** Views of the routes used in the statements *)

(** The required field of each request model. *)
Definition request_field (ep : Endpoint) : string :=
  match ep with
  | Qa => "query"
  | DoctorMatching => "symptoms"
  | Affirmations => "categories"
  | ProductRecommendations => "user_input"
  end.

(** Whether the field's validator accepts a JSON value. *)
Definition field_accepts `{Libraries} (ep : Endpoint) (j : Json) : bool :=
  match ep with
  | Affirmations => bool_decide (is_Some (validate_list_str_json j))
  | _ => bool_decide (is_Some (validate_str_json j))
  end.

Definition request_model (ep : Endpoint) : string :=
  match ep with
  | Qa => "QARequest"
  | DoctorMatching => "DoctorMatchingRequest"
  | Affirmations => "AffirmationRequest"
  | ProductRecommendations => "ProductRecommendationRequest"
  end.

(** The fields each response model declares, in order. *)
Definition response_fields (ep : Endpoint) : list string :=
  match ep with
  | Qa | DoctorMatching => ["response"; "retrieved_documents_count"]
  | Affirmations => ["response"; "affirmations"; "retrieved_documents_count"]
  | ProductRecommendations => ["response"; "products"; "retrieved_documents_count"]
  end.

(** The key a handler reads with [.get(key, [])]. *)
Definition optional_key (ep : Endpoint) : option string :=
  match ep with
  | Affirmations => Some "affirmations"
  | ProductRecommendations => Some "products"
  | _ => None
  end.

Definition is_client_error (status : Z) : bool := ((400 <=? status) && (status <? 500))%Z.

(** ** An instance of the libraries

    Pydantic 2 accepts only a [str] for a [str] field; Starlette prints an
    [HTTPException] as its status, a colon and its detail.  The two error
    reports are cut down to their first line. *)
Definition pydantic2 : Libraries := {|
  validate_str a := match a with AStr s => Some s | _ => None end;
  validate_str_str s := eq_refl;
  validation_error_str model errors _ :=
    pretty (length errors) +:+ " validation error for " +:+ model;
  request_validation_errors model body :=
    JList [JObj [("loc", JList [json_str "body"]); ("input", body)]];
  http_exception_str status_code detail := pretty status_code +:+ ": " +:+ detail
|}.

(** Pydantic 1 also turns a number into its decimal text. *)
Definition pydantic1 : Libraries := {|
  validate_str a :=
    match a with
    | AStr s => Some s
    | AInt n => Some (pretty n)
    | ABool b => Some (if b then "True" else "False")
    | ANone => None
    end;
  validate_str_str s := eq_refl;
  validation_error_str model errors _ :=
    pretty (length errors) +:+ " validation error for " +:+ model;
  request_validation_errors model body :=
    JList [JObj [("loc", JList [json_str "body"]); ("input", body)]];
  http_exception_str status_code detail := pretty status_code +:+ ": " +:+ detail
|}.

(** A pipeline whose four functions ignore their argument: they leave the heap
    [h] behind and return or raise [o]. *)
Definition constant_pipeline (o : Outcome PyVal) (h : Heap) : RagPipeline := {|
  chatbot_qa _ _ := (o, h);
  doctor_symptoms_matching _ _ := (o, h);
  affirmation_recommendation _ _ := (o, h);
  product_recommendation _ _ := (o, h)
|}.

(** The result of the first scenario: at location 1 the mapping
    [{"response": "It is...", "retrieved_documents": [d1, d2]}], its list at
    location 2, the two documents at locations 3 and 4. *)
Definition two_documents : Heap :=
  <[1%nat := ODict (<["response" := VAtom (AStr "It is...")]>
                    (<["retrieved_documents" := VRef 2]> ∅))]>
  (<[2%nat := OList [VRef 3; VRef 4]]>
  (<[3%nat := OInstance "Document"]>
  (<[4%nat := OInstance "Document"]> ∅))).

(** The same mapping without its [response]. *)
Definition no_response : Heap :=
  <[1%nat := ODict (<["retrieved_documents" := VRef 2]> ∅)]>
  (<[2%nat := OList [VRef 3; VRef 4]]>
  (<[3%nat := OInstance "Document"]>
  (<[4%nat := OInstance "Document"]> ∅))).

Definition exiting_pipeline : RagPipeline :=
  constant_pipeline (Raises (BaseExceptionOnly "SystemExit" "1")) ∅.

Definition interrupted_pipeline : RagPipeline :=
  constant_pipeline (Raises (BaseExceptionOnly "KeyboardInterrupt" "")) ∅.

(** The result of the second scenario: the mapping
    [{"response": "Here are some affirmations", "retrieved_documents": [d1]}],
    with no [affirmations] key. *)
Definition one_document : Heap :=
  <[1%nat := ODict (<["response" := VAtom (AStr "Here are some affirmations")]>
                    (<["retrieved_documents" := VRef 2]> ∅))]>
  (<[2%nat := OList [VRef 3]]>
  (<[3%nat := OInstance "Document"]> ∅)).

(** The first scenario's mapping with one more key, [sources]. *)
Definition two_documents_sources : Heap :=
  <[1%nat := ODict (<["sources" := VRef 2]>
                    (<["response" := VAtom (AStr "It is...")]>
                    (<["retrieved_documents" := VRef 2]> ∅)))]> two_documents.

(** A pipeline that only answers questions. *)
Definition qa_only_pipeline : RagPipeline := {|
  chatbot_qa _ _ := (Returns (VRef 1), two_documents);
  doctor_symptoms_matching _ h := (Raises (OtherException "NotImplementedError" ""), h);
  affirmation_recommendation _ h := (Raises (OtherException "NotImplementedError" ""), h);
  product_recommendation _ h := (Raises (OtherException "NotImplementedError" ""), h)
|}.

(** A state after earlier requests. *)
Definition busy_state : State :=
  {| heap := no_response; calls := [Call_product_recommendation "cooling pillow"] |}.

(** A mapping whose [retrieved_documents] is [None]. *)
Definition no_documents : Heap :=
  <[1%nat := ODict (<["response" := VAtom (AStr "It is...")]>
                    (<["retrieved_documents" := VAtom ANone]> ∅))]> ∅.

(** A mapping whose [affirmations] is [None]. *)
Definition affirmations_none : Heap :=
  <[1%nat := ODict (<["affirmations" := VAtom ANone]>
                    (<["response" := VAtom (AStr "Here are some affirmations")]>
                    (<["retrieved_documents" := VRef 2]> ∅)))]>
  (<[2%nat := OList [VRef 3]]>
  (<[3%nat := OInstance "Document"]> ∅)).

(** A mapping whose [response] is a list of one text. *)
Definition response_list : Heap :=
  <[1%nat := ODict (<["response" := VRef 2]>
                    (<["retrieved_documents" := VRef 2]> ∅))]>
  (<[2%nat := OList [VAtom (AStr "It is...")]]> ∅).

(** A mapping whose [retrieved_documents] is a text of two characters, six
    bytes in UTF-8. *)
Definition documents_text : Heap :=
  <[1%nat := ODict (<["response" := VAtom (AStr "It is...")]>
                    (<["retrieved_documents" := VAtom (AStr "日本")]> ∅))]> ∅.

(** A mapping with two affirmations. *)
Definition affirmations_two : Heap :=
  <[1%nat := ODict (<["affirmations" := VRef 4]>
                    (<["response" := VAtom (AStr "Here are some affirmations")]>
                    (<["retrieved_documents" := VRef 2]> ∅)))]>
  (<[2%nat := OList [VRef 3]]>
  (<[3%nat := OInstance "Document"]>
  (<[4%nat := OList [VAtom (AStr "I am calm"); VAtom (AStr "I am strong")]]> ∅))).

Definition initial_state : State := {| heap := ∅; calls := [] |}.

Definition qa_body : Json := JObj [("query", json_str "What is perimenopause?")].
Definition doctor_body : Json := JObj [("symptoms", json_str "hot flashes")].
Definition affirmation_body : Json := JObj [("categories", JList [json_str "confidence"])].

(** ** The entry point: the port to listen on

    [if __name__ == "__main__":] reads the port from the environment and
    starts the server.  On an ASCII text, what [int()] strips as white space,
    the number of digits it converts (CPython 3.11 stops at 4300 unless told
    otherwise; the limit cannot be set below 640) and the text of its
    [ValueError] are taken as parameters.  On a text with a character outside
    ASCII, [int()] also reads the decimal digits and the white space of every
    script of Unicode; what it makes of such a text is a parameter as a
    whole, [int_other_scripts]. *)

Definition is_ascii_char (c : Ascii.ascii) : bool :=
  match c with
  | Ascii.Ascii _ _ _ _ _ _ _ b7 => negb b7
  end.

Fixpoint is_ascii (s : string) : bool :=
  match s with
  | String c rest => is_ascii_char c && is_ascii rest
  | EmptyString => true
  end.

Class Interpreter := {
  int_space : Ascii.ascii → bool;
  int_space_not_numeral : ∀ c,
    int_space c = true →
    Ascii.is_nat c = None ∧ c ≠ "+"%char ∧ c ≠ "-"%char ∧ c ≠ "_"%char;
  int_space_ascii : ∀ c, int_space c = true → is_ascii_char c = true;
  int_digits_ok : list nat → bool;
  int_digits_ok_short : ∀ ds, (length ds < 640)%nat → int_digits_ok ds = true;
  int_other_scripts : string → option Z;
  int_error_str : string → string
}.

Fixpoint skip_spaces `{Interpreter} (s : string) : string :=
  match s with
  | String c rest => if int_space c then skip_spaces rest else s
  | EmptyString => EmptyString
  end.

Definition take_sign (s : string) : bool * string :=
  match s with
  | String c rest =>
      if decide (c = "-"%char) then (true, rest)
      else if decide (c = "+"%char) then (false, rest)
      else (false, s)
  | EmptyString => (false, s)
  end.

(** The digits of a numeral, single underscores between digits allowed, and
    the text after it.  [after_underscore]: the character before was an
    underscore, so a digit has to follow. *)
Fixpoint scan_digits (after_underscore : bool) (s : string)
  : option (list nat * string) :=
  match s with
  | String c rest =>
      match Ascii.is_nat c with
      | Some n => '(ds, tail) ← scan_digits false rest; Some (n :: ds, tail)
      | None =>
          if after_underscore then None
          else if decide (c = "_"%char) then scan_digits true rest
          else Some ([], s)
      end
  | EmptyString => if after_underscore then None else Some ([], EmptyString)
  end.

Definition digits_value (ds : list nat) : N :=
  foldl (λ acc n, 10 * acc + N.of_nat n)%N 0%N ds.

Definition head_digit (s : string) : bool :=
  match s with
  | String c _ => bool_decide (is_Some (Ascii.is_nat c))
  | EmptyString => false
  end.

(** [int(s)] in base 10 on an ASCII text, when it succeeds: white space, a
    sign, a numeral that starts with a digit, white space. *)
Definition parse_decimal `{Interpreter} (s : string) : option Z :=
  let '(negative, numeral) := take_sign (skip_spaces s) in
  if head_digit numeral then
    '(ds, tail) ← scan_digits false numeral;
    if decide (skip_spaces tail = "") then
      if int_digits_ok ds then
        Some (if negative then - Z.of_N (digits_value ds)
              else Z.of_N (digits_value ds))
      else None
    else None
  else None.

(** [int(s)] in base 10 when it succeeds. *)
Definition parse_int `{Interpreter} (s : string) : option Z :=
  if is_ascii s then parse_decimal s else int_other_scripts s.

(** [int(x)] *)
Definition py_int `{Interpreter} (x : Atom) : Outcome Z :=
  match x with
  | AInt n => Returns n
  | ABool b => Returns (if b then 1 else 0)
  | AStr s =>
      match parse_int s with
      | Some n => Returns n
      | None => Raises (OtherException "ValueError" (int_error_str s))
      end
  | ANone =>
      Raises (TypeError
        "int() argument must be a string, a bytes-like object or a real number, not 'NoneType'")
  end.

(** [os.environ.get(key, default)] *)
Definition environ_get (environ : gmap string string) (key : string) (dflt : Atom)
  : Atom :=
  match environ !! key with
  | Some s => AStr s
  | None => dflt
  end.

(** The [__main__] block: the host and the port [uvicorn.run] is called with,
    or the exception that ends the process before the server starts. *)
Definition main `{Interpreter} (environ : gmap string string) : Outcome (string * Z) :=
  match py_int (environ_get environ "PORT" (AInt 8000)) with
  | Returns port => Returns ("0.0.0.0", port)
  | Raises e => Raises e
  end.

Fixpoint all_spaces `{Interpreter} (s : string) : bool :=
  match s with
  | String c rest => int_space c && all_spaces rest
  | EmptyString => true
  end.

Fixpoint in_string (c : Ascii.ascii) (s : string) : Prop :=
  match s with
  | String c' rest => c = c' ∨ in_string c rest
  | EmptyString => False
  end.

(** A character no decimal literal has. *)
Definition not_in_literal `{Interpreter} (c : Ascii.ascii) : Prop :=
  int_space c = false ∧ Ascii.is_nat c = None ∧
  c ≠ "+"%char ∧ c ≠ "-"%char ∧ c ≠ "_"%char.

(** CPython on ASCII text: the six characters of [isspace], the limit of
    4300 digits, and the usual message.  On a text outside ASCII this instance
    reads no number, which CPython does for the digits of other scripts: it
    stands for CPython on ASCII texts only. *)
Definition cpython : Interpreter.
Proof.
  refine {| int_space := Ascii.is_space;
            int_digits_ok ds := bool_decide (length ds ≤ 4300)%nat;
            int_other_scripts _ := None;
            int_error_str s := "invalid literal for int() with base 10: " +:+ py_repr s |}.
  - intros [[] [] [] [] [] [] [] []]; (discriminate || (intros _; repeat split; discriminate)).
  - intros [[] [] [] [] [] [] [] []]; (discriminate || reflexivity).
  - intros ds Hds. apply bool_decide_eq_true. lia.
Defined.

(** ** Notions used in the statements and in the proofs *)

(** A computation that raises nothing but instances of [Exception]. *)
Definition raises_Exception_only {A} (m : M A) : Prop :=
  ∀ st e st', m st = (Raises e, st') → isinstance_Exception e = true.

(** A computation that calls no pipeline function and leaves every object of
    the heap as it is; it may allocate. *)
Definition allocates_only {A} (m : M A) : Prop :=
  ∀ st o st', m st = (o, st') → heap st ⊆ heap st' ∧ calls st' = calls st.

Create HintDb handler discriminated.

(** What a handler does with the value the pipeline returned, up to the JSON
    body: the rest of its [try] block, then the model's dump.  Lemma
    [post_answer] relates the routes to it. *)
Definition result_to_body `{Libraries} (ep : Endpoint) (result : PyVal) : M Json :=
  match ep with
  | Qa =>
      r <- (response <- py_getitem result "response" ;;
            documents <- py_getitem result "retrieved_documents" ;;
            count <- py_len documents ;;
            QAResponse.new response count) ;;
      ret (QAResponse.dump r)
  | DoctorMatching =>
      r <- (response <- py_getitem result "response" ;;
            documents <- py_getitem result "retrieved_documents" ;;
            count <- py_len documents ;;
            DoctorMatchingResponse.new response count) ;;
      ret (DoctorMatchingResponse.dump r)
  | Affirmations =>
      r <- (response <- py_getitem result "response" ;;
            affirmations <- py_get result "affirmations" (new_list []) ;;
            documents <- py_getitem result "retrieved_documents" ;;
            count <- py_len documents ;;
            AffirmationResponse.new response affirmations count) ;;
      ret (AffirmationResponse.dump r)
  | ProductRecommendations =>
      r <- (response <- py_getitem result "response" ;;
            products <- py_get result "products" (new_list []) ;;
            documents <- py_getitem result "retrieved_documents" ;;
            count <- py_len documents ;;
            ProductRecommendationResponse.new response products count) ;;
      ret (ProductRecommendationResponse.dump r)
  end.

(** The response to a validated body, from what the pipeline did. *)
Definition answer `{Libraries} (ep : Endpoint) (o : Outcome PyVal) (st1 : State)
  : HttpResult * State :=
  match o with
  | Raises e =>
      (if isinstance_Exception e
       then HttpResponse 500 (detail_body (json_str (error_prefix ep +:+ py_str e)))
       else Propagated e, st1)
  | Returns result =>
      match result_to_body ep result st1 with
      | (Returns j, st2) => (HttpResponse 200 j, st2)
      | (Raises e, st2) =>
          (HttpResponse 500 (detail_body (json_str (error_prefix ep +:+ py_str e))), st2)
      end
  end.

(** A computation whose outcome and final heap depend on the heap alone, not
    on the log of calls. *)
Definition heap_determined {A} (m : M A) : Prop :=
  ∀ h cs1 cs2,
    (m {| heap := h; calls := cs1 |}).1 = (m {| heap := h; calls := cs2 |}).1 ∧
    heap (m {| heap := h; calls := cs1 |}).2 = heap (m {| heap := h; calls := cs2 |}).2.

(** What the pipeline does for a request in a state: nothing when the body is
    rejected, else the outcome and the heap it leaves. *)
Definition pipeline_outcome `{Libraries} (P : RagPipeline) (ep : Endpoint) (body : Json)
    (st : State) : option (Outcome PyVal * Heap) :=
  (λ cf, cf.2 (heap st)) <$> pipeline_call P ep body.

(** The body of a success response, from the validated fields. *)
Definition success_body (ep : Endpoint) (s : string) (items : list string) (n : Z)
  : Json :=
  match ep with
  | Qa =>
      QAResponse.dump
        {| QAResponse.response := s; QAResponse.retrieved_documents_count := n |}
  | DoctorMatching =>
      DoctorMatchingResponse.dump
        {| DoctorMatchingResponse.response := s;
           DoctorMatchingResponse.retrieved_documents_count := n |}
  | Affirmations =>
      AffirmationResponse.dump
        {| AffirmationResponse.response := s;
           AffirmationResponse.affirmations := items;
           AffirmationResponse.retrieved_documents_count := n |}
  | ProductRecommendations =>
      ProductRecommendationResponse.dump
        {| ProductRecommendationResponse.response := s;
           ProductRecommendationResponse.products := items;
           ProductRecommendationResponse.retrieved_documents_count := n |}
  end.

(** The validated optional field of a mapping [d] in a heap [h]: what
    [d.get(key, [])] validates to, the default being allocated in [h]. *)
Definition optional_items `{Libraries} (ep : Endpoint) (h : Heap)
    (d : gmap string PyVal) (items : list string) : Prop :=
  match optional_key ep with
  | None => items = []
  | Some key =>
      validate_list_str (<[fresh (dom h) := OList []]> h)
        (default (VRef (fresh (dom h))) (d !! key)) = Some items
  end.

(** The name of each response model. *)
Definition response_model (ep : Endpoint) : string :=
  match ep with
  | Qa => "QAResponse"
  | DoctorMatching => "DoctorMatchingResponse"
  | Affirmations => "AffirmationResponse"
  | ProductRecommendations => "ProductRecommendationResponse"
  end.

(** Whether a value is a [dict] of the heap. *)
Definition is_dict (h : Heap) (v : PyVal) : bool :=
  match v with
  | VRef l => match obj_at h l with ODict _ => true | _ => false end
  | VAtom _ => false
  end.

(** [len] of a value that has one: the number of characters of a text, of
    items of a list, of keys of a mapping of the heap. *)
Definition sized (h : Heap) (v : PyVal) : option nat :=
  match v with
  | VAtom (AStr s) => Some (text_length s)
  | VAtom _ => None
  | VRef l =>
      match h !! l with
      | Some (OList xs) => Some (length xs)
      | Some (ODict d) => Some (size d)
      | _ => None
      end
  end.

(** The type name of a value that has no [len]: a scalar other than a text,
    an instance on the heap. *)
Definition unsized (h : Heap) (v : PyVal) : option string :=
  match v with
  | VAtom (AStr _) => None
  | VAtom a => Some (atom_type_name a)
  | VRef l =>
      match h !! l with
      | Some (OInstance cls) => Some cls
      | _ => None
      end
  end.

(** The optional field of a well-formed result: the key is absent and there
    are no items, or it holds a list of the heap whose items are texts.  The
    routes without an optional field have no items. *)
Definition optional_field (ep : Endpoint) (h : Heap) (d : gmap string PyVal)
    (items : list string) : Prop :=
  match optional_key ep with
  | None => items = []
  | Some key =>
      match d !! key with
      | None => items = []
      | Some v =>
          ∃ la, v = VRef la ∧
                h !! la = Some (OList ((λ s, VAtom (AStr s)) <$> items))
      end
  end.

(** How a handler ends, [pipeline] being what its pipeline function did: it
    returns, and the pipeline returned; or it raises [HTTPException] with
    status 500 and a detail that starts with [prefix]; or it lets through an
    exception outside [Exception] that the pipeline raised. *)
Definition handler_ends {A} (prefix : string) (pipeline : Outcome PyVal)
    (o : Outcome A) : Prop :=
  match o with
  | Returns _ => ∃ result, pipeline = Returns result
  | Raises e =>
      (∃ msg, e = HTTPException 500 (prefix +:+ msg)) ∨
      (isinstance_Exception e = false ∧ pipeline = Raises e)
  end.

(** * Properties *)

(** ** Auxiliary facts *)

Lemma prefix_app (p s : string) : String.prefix p (p +:+ s) = true.
Proof.
  induction p as [|a p IH]; simpl.
  - by destruct s.
  - destruct (Ascii.ascii_dec a a); [exact IH | done].
Qed.

Lemma fresh_location_ne (h : Heap) (l : nat) (o : PyObj) :
  h !! l = Some o → fresh (dom h) ≠ l.
Proof.
  intros Hl Heq. apply (is_fresh (dom h)). rewrite Heq.
  apply elem_of_dom. by exists o.
Qed.

Lemma obj_at_Some (h : Heap) (l : nat) (o : PyObj) :
  h !! l = Some o → obj_at h l = o.
Proof. unfold obj_at. by intros ->. Qed.

Lemma obj_at_alloc (h : Heap) (l : nat) (o x : PyObj) :
  h !! l = Some o → obj_at (<[fresh (dom h) := x]> h) l = o.
Proof.
  intros Hl. apply obj_at_Some.
  rewrite lookup_insert_ne; [done | by eapply fresh_location_ne].
Qed.

Lemma alloc_extends (h : Heap) (x : PyObj) : h ⊆ <[fresh (dom h) := x]> h.
Proof.
  apply insert_subseteq, not_elem_of_dom, is_fresh.
Qed.

Lemma mapM_validate_str_val `{Libraries} (l : list string) :
  mapM validate_str_val ((λ s, VAtom (AStr s)) <$> l) = Some l.
Proof.
  apply mapM_Some. induction l as [|s l IH]; simpl; constructor; [|done].
  apply validate_str_str.
Qed.

(** Unfolding a route down to the pipeline call. *)
Ltac unfold_route :=
  unfold post, fastapi_post, qa_endpoint, doctor_matching_endpoint,
    affirmations_endpoint, product_recommendations_endpoint,
    try_except_Exception, call_pipeline, bind in *.

(** Case analysis on the request model's verdict in [pipeline_call]. *)
Ltac parsed Hcall :=
  simpl in Hcall;
  match type of Hcall with
  | context [?p ?b ≫= _] => destruct (p b) as [?r|] eqn:?Hparse
  end; simplify_eq/=.

(** ** The monad *)

Lemma bind_raises_Exception_only {A B} (m : M A) (k : A → M B) :
  raises_Exception_only m → (∀ a, raises_Exception_only (k a)) →
  raises_Exception_only (bind m k).
Proof.
  intros Hm Hk st e st'. unfold bind.
  destruct (m st) as [[a|e1] st1] eqn:Hst.
  - apply Hk.
  - intros [= <- <-]. by eapply Hm.
Qed.

Lemma bind_allocates_only {A B} (m : M A) (k : A → M B) :
  allocates_only m → (∀ a, allocates_only (k a)) → allocates_only (bind m k).
Proof.
  intros Hm Hk st o st'. unfold bind.
  destruct (m st) as [[a|e1] st1] eqn:Hst.
  - intros Hk1. destruct (Hm _ _ _ Hst) as [? ?], (Hk _ _ _ _ Hk1) as [? ?].
    split; [by etrans | congruence].
  - intros [= <- <-]. by eapply Hm.
Qed.

Lemma ret_raises {A} (a : A) : raises_Exception_only (ret a).
Proof. by intros st e st'. Qed.

Lemma ret_allocates {A} (a : A) : allocates_only (ret a).
Proof. by intros st o st' [= <- <-]. Qed.

Section Operations.
Context `{Libraries}.

Lemma py_getitem_raises v key : raises_Exception_only (py_getitem v key).
Proof.
  intros st e st'. unfold py_getitem.
  repeat case_match; by intros [= <- <-].
Qed.

Lemma py_len_raises v : raises_Exception_only (py_len v).
Proof.
  intros st e st'. unfold py_len.
  repeat case_match; by intros [= <- <-].
Qed.

Lemma new_list_raises xs : raises_Exception_only (new_list xs).
Proof. by intros st e st' [= <-]. Qed.

Lemma py_getattr_get_raises v : raises_Exception_only (py_getattr_get v).
Proof.
  intros st e st'. unfold py_getattr_get.
  repeat case_match; by intros [= <- <-].
Qed.

Lemma dict_get_raises v key dflt : raises_Exception_only (dict_get v key dflt).
Proof.
  intros st e st'. unfold dict_get.
  repeat case_match; by intros [= <- <-].
Qed.

Lemma py_get_raises v key default_expr :
  raises_Exception_only default_expr →
  raises_Exception_only (py_get v key default_expr).
Proof.
  intros Hd. unfold py_get.
  apply bind_raises_Exception_only; [apply py_getattr_get_raises | intros _].
  apply bind_raises_Exception_only; [done | intros dflt].
  apply dict_get_raises.
Qed.

Lemma QAResponse_new_raises v n : raises_Exception_only (QAResponse.new v n).
Proof.
  intros st e st'. unfold QAResponse.new. case_match; by intros [= <- <-].
Qed.

Lemma DoctorMatchingResponse_new_raises v n :
  raises_Exception_only (DoctorMatchingResponse.new v n).
Proof.
  intros st e st'. unfold DoctorMatchingResponse.new.
  case_match; by intros [= <- <-].
Qed.

Lemma AffirmationResponse_new_raises v w n :
  raises_Exception_only (AffirmationResponse.new v w n).
Proof.
  intros st e st'. unfold AffirmationResponse.new.
  repeat case_match; by intros [= <- <-].
Qed.

Lemma ProductRecommendationResponse_new_raises v w n :
  raises_Exception_only (ProductRecommendationResponse.new v w n).
Proof.
  intros st e st'. unfold ProductRecommendationResponse.new.
  repeat case_match; by intros [= <- <-].
Qed.

Lemma py_getitem_allocates v key : allocates_only (py_getitem v key).
Proof.
  intros st o st'. unfold py_getitem.
  repeat case_match; by intros [= <- <-].
Qed.

Lemma py_len_allocates v : allocates_only (py_len v).
Proof.
  intros st o st'. unfold py_len.
  repeat case_match; by intros [= <- <-].
Qed.

Lemma new_list_allocates xs : allocates_only (new_list xs).
Proof.
  intros st o st' [= <- <-]. split; [apply alloc_extends | done].
Qed.

Lemma py_getattr_get_allocates v : allocates_only (py_getattr_get v).
Proof.
  intros st o st'. unfold py_getattr_get.
  repeat case_match; by intros [= <- <-].
Qed.

Lemma dict_get_allocates v key dflt : allocates_only (dict_get v key dflt).
Proof.
  intros st o st'. unfold dict_get.
  repeat case_match; by intros [= <- <-].
Qed.

Lemma py_get_allocates v key default_expr :
  allocates_only default_expr → allocates_only (py_get v key default_expr).
Proof.
  intros Hd. unfold py_get.
  apply bind_allocates_only; [apply py_getattr_get_allocates | intros _].
  apply bind_allocates_only; [done | intros dflt].
  apply dict_get_allocates.
Qed.

Lemma QAResponse_new_allocates v n : allocates_only (QAResponse.new v n).
Proof.
  intros st o st'. unfold QAResponse.new. case_match; by intros [= <- <-].
Qed.

Lemma DoctorMatchingResponse_new_allocates v n :
  allocates_only (DoctorMatchingResponse.new v n).
Proof.
  intros st o st'. unfold DoctorMatchingResponse.new.
  case_match; by intros [= <- <-].
Qed.

Lemma AffirmationResponse_new_allocates v w n :
  allocates_only (AffirmationResponse.new v w n).
Proof.
  intros st o st'. unfold AffirmationResponse.new.
  repeat case_match; by intros [= <- <-].
Qed.

Lemma ProductRecommendationResponse_new_allocates v w n :
  allocates_only (ProductRecommendationResponse.new v w n).
Proof.
  intros st o st'. unfold ProductRecommendationResponse.new.
  repeat case_match; by intros [= <- <-].
Qed.
End Operations.

#[local] Hint Resolve ret_raises ret_allocates py_getitem_raises py_len_raises new_list_raises
  py_get_raises QAResponse_new_raises DoctorMatchingResponse_new_raises
  AffirmationResponse_new_raises ProductRecommendationResponse_new_raises
  py_getitem_allocates py_len_allocates new_list_allocates py_get_allocates
  QAResponse_new_allocates DoctorMatchingResponse_new_allocates
  AffirmationResponse_new_allocates ProductRecommendationResponse_new_allocates
  : handler.

(** Goals [raises_Exception_only m] and [allocates_only m] for the part of a
    handler's [try] body that follows the pipeline call. *)
Ltac handler_body :=
  first
    [ solve [auto with handler]
    | apply bind_raises_Exception_only; [handler_body | intros ?; handler_body]
    | apply bind_allocates_only; [handler_body | intros ?; handler_body] ].

(** ** Faults raised by the pipeline *)

(** C2, as amended: for every POST endpoint, if the pipeline call raises a
    fault that is an instance of [Exception], the endpoint answers HTTP 500
    with the detail made of the endpoint's fixed prefix followed by the
    fault's description [str(e)]; the fault does not leave the handler. *)
Theorem exception_answered_500 `{Libraries} (P : RagPipeline) (ep : Endpoint)
    (body : Json) (st : State) (c : Call) (f : Heap → Outcome PyVal * Heap)
    (e : PyExc) (h' : Heap) :
  pipeline_call P ep body = Some (c, f) →
  f (heap st) = (Raises e, h') →
  isinstance_Exception e = true →
  ∃ detail,
    post P ep body st =
      (HttpResponse 500 (detail_body (json_str detail)),
       {| heap := h'; calls := calls st ++ [c] |}) ∧
    detail = error_prefix ep +:+ py_str e ∧
    String.prefix (error_prefix ep) detail = true.
Proof.
  intros Hcall Hf He. eexists. split; [|split; [reflexivity | apply prefix_app]].
  destruct ep; parsed Hcall; unfold_route; rewrite Hparse, Hf, He; simpl;
    destruct e; done.
Qed.

Lemma exception_answered_500_witness :
  ∃ detail,
    @post pydantic2 (constant_pipeline (Raises (OtherException "RuntimeError"
                                                   "index unavailable")) ∅)
      DoctorMatching doctor_body initial_state =
      (HttpResponse 500 (detail_body (json_str detail)),
       {| heap := ∅;
          calls := [Call_doctor_symptoms_matching "hot flashes"] |}) ∧
    detail = "Error processing doctor matching request: index unavailable" ∧
    String.prefix "Error processing doctor matching request: " detail = true.
Proof.
  exact (@exception_answered_500 pydantic2
           (constant_pipeline (Raises (OtherException "RuntimeError"
                                         "index unavailable")) ∅)
           DoctorMatching doctor_body initial_state _ _ _ _
           eq_refl eq_refl eq_refl).
Defined.

(** C2 as stated fails: a fault that is not an instance of [Exception], here
    the [SystemExit] of a pipeline that calls [sys.exit(1)], passes the
    [except Exception] clause and leaves the application; the endpoint makes
    no response, with or without the prefix. *)
Lemma system_exit_not_answered :
  chatbot_qa exiting_pipeline "What is perimenopause?" ∅ =
    (Raises (BaseExceptionOnly "SystemExit" "1"), ∅) ∧
  (@post pydantic2 exiting_pipeline Qa qa_body initial_state).1 =
    Propagated (BaseExceptionOnly "SystemExit" "1") ∧
  ∀ status j,
    (@post pydantic2 exiting_pipeline Qa qa_body initial_state).1 ≠ HttpResponse status j.
Proof. by vm_compute. Qed.


(** ** The shape of a POST route *)

Section Routes.
Context `{Libraries} (P : RagPipeline).

Lemma result_to_body_raises ep result :
  raises_Exception_only (result_to_body ep result).
Proof. destruct ep; simpl; handler_body. Qed.

Lemma result_to_body_allocates ep result :
  allocates_only (result_to_body ep result).
Proof. destruct ep; simpl; handler_body. Qed.

Lemma try_call_pipeline {A} (c : Call) (f : Heap → Outcome PyVal * Heap)
    (k : PyVal → M A) (pre : string) (dump : A → Json) st o h' :
  (∀ v, raises_Exception_only (k v)) →
  f (heap st) = (o, h') →
  let st1 := {| heap := h'; calls := calls st ++ [c] |} in
  (let '(r, st2) :=
     try_except_Exception (bind (call_pipeline c f) k)
       (λ e, raise (HTTPException 500 (pre +:+ py_str e))) st in
   (respond dump r, st2)) =
  match o with
  | Raises e =>
      (if isinstance_Exception e
       then HttpResponse 500 (detail_body (json_str (pre +:+ py_str e)))
       else Propagated e, st1)
  | Returns result =>
      match bind (k result) (λ a, ret (dump a)) st1 with
      | (Returns j, st2) => (HttpResponse 200 j, st2)
      | (Raises e, st2) =>
          (HttpResponse 500 (detail_body (json_str (pre +:+ py_str e))), st2)
      end
  end.
Proof.
  intros Hk Hf. unfold try_except_Exception, bind, call_pipeline, raise, ret.
  rewrite Hf. destruct o as [result|e]; cbn beta iota zeta.
  - destruct (k result _) as [[a|e] st2] eqn:Hkr; [done|].
    by rewrite (Hk _ _ _ _ Hkr).
  - destruct e; done.
Qed.

(** A POST route on a body its request model accepts. *)
Lemma post_answer ep body st c f o h' :
  pipeline_call P ep body = Some (c, f) →
  f (heap st) = (o, h') →
  post P ep body st = answer ep o {| heap := h'; calls := calls st ++ [c] |}.
Proof.
  intros Hcall Hf.
  destruct ep; parsed Hcall; unfold post, fastapi_post; rewrite Hparse;
    unfold answer, result_to_body.
  - unfold qa_endpoint.
    apply (try_call_pipeline _ _ _ _ QAResponse.dump st o h'); [|done].
    intros v; handler_body.
  - unfold doctor_matching_endpoint.
    apply (try_call_pipeline _ _ _ _ DoctorMatchingResponse.dump st o h'); [|done].
    intros v; handler_body.
  - unfold affirmations_endpoint.
    apply (try_call_pipeline _ _ _ _ AffirmationResponse.dump st o h'); [|done].
    intros v; handler_body.
  - unfold product_recommendations_endpoint.
    apply (try_call_pipeline _ _ _ _ ProductRecommendationResponse.dump st o h');
      [|done].
    intros v; handler_body.
Qed.

(** A POST route on a body its request model rejects. *)
Lemma post_rejected ep body st :
  pipeline_call P ep body = None →
  post P ep body st =
    (HttpResponse 422 (detail_body (request_validation_errors (request_model ep) body)),
     st).
Proof.
  intros Hcall.
  destruct ep; simpl in Hcall; unfold post, fastapi_post;
    match type of Hcall with
    | context [?p ?b ≫= _] => destruct (p b) as [?r|] eqn:?Hparse
    end; done.
Qed.
End Routes.

(** C8, as amended: for every POST endpoint, an exception the pipeline raises
    that is an instance of [Exception] (an [HTTPException] with any status
    code among them) is caught and reported as HTTP 500 with the endpoint's
    prefix; an exception outside [Exception] is not caught and no response is
    made; and whatever the pipeline does, the only statuses the endpoint
    answers a validated body with are 500 and, when the pipeline returned,
    200. *)
Theorem raised_exception_status `{Libraries} (P : RagPipeline) (ep : Endpoint)
    (body : Json) (st : State) (c : Call) (f : Heap → Outcome PyVal * Heap)
    (o : Outcome PyVal) (h' : Heap) :
  pipeline_call P ep body = Some (c, f) →
  f (heap st) = (o, h') →
  (∀ e, o = Raises e →
     (post P ep body st).1 =
       if isinstance_Exception e
       then HttpResponse 500 (detail_body (json_str (error_prefix ep +:+ py_str e)))
       else Propagated e) ∧
  (∀ status_code detail, o = Raises (HTTPException status_code detail) →
     (post P ep body st).1 =
       HttpResponse 500
         (detail_body (json_str (error_prefix ep +:+
                                 http_exception_str status_code detail)))) ∧
  (∀ status j, (post P ep body st).1 = HttpResponse status j →
     status = 500 ∨ (status = 200 ∧ ∃ v, o = Returns v)).
Proof.
  intros Hcall Hf. rewrite (post_answer P ep body st c f o h' Hcall Hf).
  split; [by intros e ->|]. split; [by intros status_code detail ->|].
  intros status j. unfold answer. destruct o as [result|e].
  - destruct (result_to_body ep result _) as [[j'|e] st2]; intros [= <- <-]; eauto.
  - destruct (isinstance_Exception e); intros [= <- <-]; eauto.
Qed.

Lemma raised_exception_status_witness :
  (@post pydantic2 (constant_pipeline (Raises (HTTPException 404 "no such doctor")) ∅)
     DoctorMatching doctor_body initial_state).1 =
    HttpResponse 500
      (detail_body (json_str
         "Error processing doctor matching request: 404: no such doctor")).
Proof.
  exact (proj1 (proj2
    (@raised_exception_status pydantic2
       (constant_pipeline (Raises (HTTPException 404 "no such doctor")) ∅)
       DoctorMatching doctor_body initial_state _ _ _ _ eq_refl eq_refl))
    404 "no such doctor" eq_refl).
Defined.

(** C8 as stated fails: a [KeyboardInterrupt] raised while the pipeline runs
    is an exception the [except Exception] clause does not catch; it is not
    reported as HTTP 500. *)
Lemma keyboard_interrupt_not_caught :
  affirmation_recommendation interrupted_pipeline ["confidence"] ∅ =
    (Raises (BaseExceptionOnly "KeyboardInterrupt" ""), ∅) ∧
  (@affirmations_endpoint pydantic2 interrupted_pipeline
     {| AffirmationRequest.categories := ["confidence"] |} initial_state).1 =
    Raises (BaseExceptionOnly "KeyboardInterrupt" "") ∧
  (@post pydantic2 interrupted_pipeline Affirmations affirmation_body initial_state).1 =
    Propagated (BaseExceptionOnly "KeyboardInterrupt" "") ∧
  ∀ j, (@post pydantic2 interrupted_pipeline Affirmations affirmation_body
          initial_state).1 ≠ HttpResponse 500 j.
Proof. by vm_compute. Qed.

(** ** The operations on a mapping and on a list *)

Lemma py_getitem_dict (st : State) (l : nat) (d : gmap string PyVal) (key : string) :
  obj_at (heap st) l = ODict d →
  py_getitem (VRef l) key st =
    (match d !! key with Some x => Returns x | None => Raises (KeyError key) end, st).
Proof. unfold py_getitem. intros ->. by destruct (d !! key). Qed.

Lemma py_len_list (st : State) (l : nat) (xs : list PyVal) :
  obj_at (heap st) l = OList xs →
  py_len (VRef l) st = (Returns (Z.of_nat (length xs)), st).
Proof. unfold py_len. by intros ->. Qed.

Lemma py_get_new_list (st : State) (l : nat) (d : gmap string PyVal) (key : string) :
  heap st !! l = Some (ODict d) →
  py_get (VRef l) key (new_list []) st =
    (Returns (default (VRef (fresh (dom (heap st)))) (d !! key)),
     {| heap := <[fresh (dom (heap st)) := OList []]> (heap st); calls := calls st |}).
Proof.
  intros Hl. unfold py_get, bind, py_getattr_get, new_list, dict_get.
  rewrite (obj_at_Some _ _ _ Hl). cbn [heap].
  by rewrite (obj_at_alloc _ _ _ _ Hl).
Qed.

(** Resolving the head operation of a handler body on a known mapping. *)
Ltac on_dict Hl :=
  first
    [ rewrite (py_get_new_list _ _ _ _ Hl)
    | erewrite py_getitem_dict by
        (first [apply obj_at_Some; exact Hl | apply obj_at_alloc; exact Hl]) ].

Section Results.
Context `{Libraries}.

Lemma result_to_body_no_response ep st1 l d :
  heap st1 !! l = Some (ODict d) →
  d !! "response" = None →
  result_to_body ep (VRef l) st1 = (Raises (KeyError "response"), st1).
Proof.
  intros Hl Hr.
  destruct ep; cbn [result_to_body]; unfold bind; on_dict Hl; by rewrite Hr.
Qed.

Lemma result_to_body_no_documents ep st1 l d response :
  heap st1 !! l = Some (ODict d) →
  d !! "response" = Some response →
  d !! "retrieved_documents" = None →
  ∃ st2, result_to_body ep (VRef l) st1 =
           (Raises (KeyError "retrieved_documents"), st2).
Proof.
  intros Hl Hr Hd.
  destruct ep; cbn [result_to_body]; unfold bind; on_dict Hl; rewrite Hr;
    cbn beta iota; repeat on_dict Hl; rewrite ?Hd; eauto.
Qed.
End Results.

Ltac on_list Hl :=
  erewrite py_len_list by
    (first [apply obj_at_Some; exact Hl | apply obj_at_alloc; exact Hl]).

Section Success.
Context `{Libraries}.

Lemma result_to_body_count ep st1 l d ld docs j st2 :
  heap st1 !! l = Some (ODict d) →
  d !! "retrieved_documents" = Some (VRef ld) →
  heap st1 !! ld = Some (OList docs) →
  result_to_body ep (VRef l) st1 = (Returns j, st2) →
  json_get "retrieved_documents_count" j =
    Some (json_int (Z.of_nat (length docs))).
Proof.
  intros Hl Hd Hld.
  destruct ep; cbn [result_to_body]; unfold bind; on_dict Hl;
    (destruct (d !! "response") as [response|]; [|done]); cbn beta iota;
    repeat on_dict Hl; rewrite Hd; cbn beta iota; on_list Hld; cbn beta iota.
  - unfold QAResponse.new.
    destruct (validate_str_val response); cbn; unfold ret; intros ?;
      by simplify_eq.
  - unfold DoctorMatchingResponse.new.
    destruct (validate_str_val response); cbn; unfold ret; intros ?;
      by simplify_eq.
  - unfold AffirmationResponse.new.
    destruct (validate_str_val response), (validate_list_str _ _); cbn;
      unfold ret; intros ?; by simplify_eq.
  - unfold ProductRecommendationResponse.new.
    destruct (validate_str_val response), (validate_list_str _ _); cbn;
      unfold ret; intros ?; by simplify_eq.
Qed.

Lemma validate_new_list (h : Heap) :
  validate_list_str (<[fresh (dom h) := OList []]> h) (VRef (fresh (dom h))) =
    Some [].
Proof.
  unfold validate_list_str, obj_at. by rewrite lookup_insert_eq.
Qed.

Lemma result_to_body_default ep key st1 l d s ld docs :
  optional_key ep = Some key →
  heap st1 !! l = Some (ODict d) →
  d !! "response" = Some (VAtom (AStr s)) →
  d !! key = None →
  d !! "retrieved_documents" = Some (VRef ld) →
  heap st1 !! ld = Some (OList docs) →
  (result_to_body ep (VRef l) st1).1 =
    Returns (JObj [("response", json_str s);
                   (key, JList []);
                   ("retrieved_documents_count",
                    json_int (Z.of_nat (length docs)))]).
Proof.
  intros Hkey Hl Hr Hk Hd Hld.
  destruct ep; cbn in Hkey; simplify_eq; cbn [result_to_body]; unfold bind;
    on_dict Hl;
    rewrite Hr; cbn beta iota; repeat on_dict Hl; rewrite Hk, Hd;
    cbn beta iota; on_list Hld; cbn beta iota.
  - unfold AffirmationResponse.new. cbn [heap default validate_str_val].
    by rewrite validate_str_str, validate_new_list.
  - unfold ProductRecommendationResponse.new. cbn [heap default validate_str_val].
    by rewrite validate_str_str, validate_new_list.
Qed.
End Success.

(** ** The optional field *)

(** C3: for POST /affirmations and POST /product-recommendations, if the
    pipeline's mapping has no [affirmations] (respectively [products]) key but
    has [response], a text, and [retrieved_documents], a list, the endpoint
    succeeds and the field of the response is the empty sequence. *)
Theorem optional_field_defaults_empty `{Libraries} (P : RagPipeline) (ep : Endpoint)
    (key : string) (body : Json) (st : State) (c : Call)
    (f : Heap → Outcome PyVal * Heap) (l ld : nat) (h' : Heap)
    (d : gmap string PyVal) (s : string) (docs : list PyVal) :
  optional_key ep = Some key →
  pipeline_call P ep body = Some (c, f) →
  f (heap st) = (Returns (VRef l), h') →
  h' !! l = Some (ODict d) →
  d !! key = None →
  d !! "response" = Some (VAtom (AStr s)) →
  d !! "retrieved_documents" = Some (VRef ld) →
  h' !! ld = Some (OList docs) →
  (post P ep body st).1 =
    HttpResponse 200
      (JObj [("response", json_str s);
             (key, JList []);
             ("retrieved_documents_count", json_int (Z.of_nat (length docs)))]).
Proof.
  intros Hkey Hcall Hf Hl Hk Hr Hd Hld.
  rewrite (post_answer P ep body st c f _ h' Hcall Hf). unfold answer.
  pose proof (result_to_body_default ep key
                {| heap := h'; calls := calls st ++ [c] |} l d s ld docs
                Hkey Hl Hr Hk Hd Hld) as Hbody.
  destruct (result_to_body ep (VRef l) _) as [[j|e] st2]; by simplify_eq/=.
Qed.

Lemma optional_field_defaults_empty_witness :
  (@post pydantic2 (constant_pipeline (Returns (VRef 1)) one_document) Affirmations
     affirmation_body initial_state).1 =
    HttpResponse 200
      (JObj [("response", json_str "Here are some affirmations");
             ("affirmations", JList []);
             ("retrieved_documents_count", json_int 1)]).
Proof.
  exact (@optional_field_defaults_empty pydantic2
           (constant_pipeline (Returns (VRef 1)) one_document) Affirmations
           "affirmations" affirmation_body initial_state _ _ 1%nat 2%nat one_document
           (<["response" := VAtom (AStr "Here are some affirmations")]>
              (<["retrieved_documents" := VRef 2]> ∅))
           "Here are some affirmations" [VRef 3]
           eq_refl eq_refl eq_refl eq_refl eq_refl eq_refl eq_refl eq_refl).
Defined.

(** ** A mapping with a key missing *)

(** C4: for every POST endpoint, if the pipeline returns a mapping that lacks
    [response] or [retrieved_documents], the lookup raises [KeyError], which
    the handler catches: the endpoint answers HTTP 500 with its prefix
    followed by the quoted name of the first missing key. *)
Theorem missing_key_answered_500 `{Libraries} (P : RagPipeline) (ep : Endpoint)
    (body : Json) (st : State) (c : Call) (f : Heap → Outcome PyVal * Heap)
    (l : nat) (h' : Heap) (d : gmap string PyVal) :
  pipeline_call P ep body = Some (c, f) →
  f (heap st) = (Returns (VRef l), h') →
  h' !! l = Some (ODict d) →
  d !! "response" = None ∨ d !! "retrieved_documents" = None →
  ∃ key,
    (key = "response" ∨ key = "retrieved_documents") ∧
    d !! key = None ∧
    (post P ep body st).1 =
      HttpResponse 500
        (detail_body (json_str (error_prefix ep +:+ "'" +:+ key +:+ "'"))) ∧
    String.prefix (error_prefix ep) (error_prefix ep +:+ "'" +:+ key +:+ "'") = true.
Proof.
  intros Hcall Hf Hl Hmissing.
  rewrite (post_answer P ep body st c f _ h' Hcall Hf). unfold answer.
  destruct (d !! "response") as [response|] eqn:Hr.
  - destruct Hmissing as [?|Hd]; [done|].
    exists "retrieved_documents". split; [by right|]. split; [done|].
    destruct (result_to_body_no_documents ep
                {| heap := h'; calls := calls st ++ [c] |} l d response Hl Hr Hd)
      as [st2 ->].
    split; [done | apply prefix_app].
  - exists "response". split; [by left|]. split; [done|].
    rewrite (result_to_body_no_response ep
               {| heap := h'; calls := calls st ++ [c] |} l d Hl Hr).
    split; [done | apply prefix_app].
Qed.

Lemma missing_key_answered_500_witness :
  ∃ key,
    (key = "response" ∨ key = "retrieved_documents") ∧
    (<["retrieved_documents" := VRef 2]> ∅ : gmap string PyVal) !! key = None ∧
    (@post pydantic2 (constant_pipeline (Returns (VRef 1)) no_response) Qa qa_body
       initial_state).1 =
      HttpResponse 500
        (detail_body (json_str ("Error processing Q&A request: " +:+ "'" +:+ key +:+ "'"))) ∧
    String.prefix "Error processing Q&A request: "
      ("Error processing Q&A request: " +:+ "'" +:+ key +:+ "'") = true.
Proof.
  exact (@missing_key_answered_500 pydantic2
           (constant_pipeline (Returns (VRef 1)) no_response) Qa qa_body
           initial_state _ _ 1%nat no_response
           (<["retrieved_documents" := VRef 2]> ∅)
           eq_refl eq_refl eq_refl (or_introl eq_refl)).
Defined.

Example missing_response_detail :
  (@post pydantic2 (constant_pipeline (Returns (VRef 1)) no_response) Qa qa_body
     initial_state).1 =
    HttpResponse 500 (detail_body (json_str "Error processing Q&A request: 'response'")).
Proof. by vm_compute. Qed.

(** ** Request validation *)

Lemma rejected_body_no_call `{Libraries} (P : RagPipeline) (ep : Endpoint) (body : Json) :
  (json_get (request_field ep) body = None ∨
   ∃ j, json_get (request_field ep) body = Some j ∧ field_accepts ep j = false) →
  pipeline_call P ep body = None.
Proof.
  intros [Hmissing | (j & Hj & Hrej)].
  - destruct ep; simpl in *;
      unfold QARequest.parse, DoctorMatchingRequest.parse, AffirmationRequest.parse,
        ProductRecommendationRequest.parse; by rewrite Hmissing.
  - destruct ep; simpl in *;
      unfold QARequest.parse, DoctorMatchingRequest.parse, AffirmationRequest.parse,
        ProductRecommendationRequest.parse; rewrite Hj; simpl;
      apply bool_decide_eq_false in Hrej;
      match goal with
      | |- context [?v j] => destruct (v j) eqn:Hv; [|done]
      end; exfalso; apply Hrej; eauto.
Qed.

(** C5: for every POST endpoint, a body that fails the request model (the
    required field is missing, or its value is of a type the field's validator
    rejects) is answered with a 4xx status, 422; the state is as before, so no
    pipeline function has been called, and the answer is not a 500. *)
Theorem invalid_body_rejected `{Libraries} (P : RagPipeline) (ep : Endpoint)
    (body : Json) (st : State) :
  (json_get (request_field ep) body = None ∨
   ∃ j, json_get (request_field ep) body = Some j ∧ field_accepts ep j = false) →
  ∃ status errors,
    post P ep body st = (HttpResponse status errors, st) ∧
    is_client_error status = true ∧
    calls (post P ep body st).2 = calls st ∧
    pipeline_call P ep body = None.
Proof.
  intros Hinvalid.
  pose proof (rejected_body_no_call P ep body Hinvalid) as Hcall.
  exists 422, (detail_body (request_validation_errors (request_model ep) body)).
  rewrite (post_rejected P ep body st Hcall). done.
Qed.

Lemma invalid_body_rejected_witness :
  ∃ status errors,
    @post pydantic2 (constant_pipeline (Returns (VRef 1)) two_documents) Qa
      (JObj [("question", json_str "What is perimenopause?")]) initial_state =
      (HttpResponse status errors, initial_state) ∧
    is_client_error status = true ∧
    calls (@post pydantic2 (constant_pipeline (Returns (VRef 1)) two_documents) Qa
             (JObj [("question", json_str "What is perimenopause?")])
             initial_state).2 = [] ∧
    @pipeline_call pydantic2 (constant_pipeline (Returns (VRef 1)) two_documents) Qa
      (JObj [("question", json_str "What is perimenopause?")]) = None.
Proof.
  exact (@invalid_body_rejected pydantic2
           (constant_pipeline (Returns (VRef 1)) two_documents) Qa
           (JObj [("question", json_str "What is perimenopause?")]) initial_state
           (or_introl eq_refl)).
Defined.

(** Bodies of a wrong type: a list where text is required, text where a list
    is required, a body that is no object.  Every release rejects them. *)
Example wrong_type_rejected `{Libraries} (P : RagPipeline) (st : State) :
  (post P Qa (JObj [("query", JList [json_str "a"])]) st).1 =
    HttpResponse 422
      (detail_body (request_validation_errors "QARequest"
                      (JObj [("query", JList [json_str "a"])]))) ∧
  (post P Affirmations (JObj [("categories", json_str "confidence")]) st).1 =
    HttpResponse 422
      (detail_body (request_validation_errors "AffirmationRequest"
                      (JObj [("categories", json_str "confidence")]))) ∧
  (post P ProductRecommendations (JList []) st).1 =
    HttpResponse 422
      (detail_body (request_validation_errors "ProductRecommendationRequest"
                      (JList []))).
Proof. done. Qed.

(** A body the model accepts reaches the pipeline, once. *)
Lemma valid_body_one_call `{Libraries} (P : RagPipeline) (ep : Endpoint) (body : Json)
    (st : State) (c : Call) (f : Heap → Outcome PyVal * Heap) :
  pipeline_call P ep body = Some (c, f) →
  calls (post P ep body st).2 = (calls st ++ [c])%list.
Proof.
  intros Hcall. destruct (f (heap st)) as [o h'] eqn:Hf.
  rewrite (post_answer P ep body st c f o h' Hcall Hf). unfold answer.
  destruct o as [result|e]; [|done].
  destruct (result_to_body ep result _) as [o2 st2] eqn:Hbody.
  apply result_to_body_allocates in Hbody as [_ Hcalls]. by destruct o2.
Qed.

(** The two releases differ on a number where text is required. *)
Example number_for_text :
  @QARequest.parse pydantic2 (JObj [("query", json_int 5)]) = None ∧
  @QARequest.parse pydantic1 (JObj [("query", json_int 5)]) =
    Some {| QARequest.query := "5" |}.
Proof. by vm_compute. Qed.

(** A body that cannot be read is answered 400 and reaches neither the
    request model nor the pipeline. *)
Lemma unreadable_body_no_call `{Libraries} (P : RagPipeline) (ep : Endpoint)
    (st : State) :
  ∃ detail,
    receive P ep Unreadable st = (HttpResponse 400 detail, st) ∧
    is_client_error 400 = true.
Proof. by eexists. Qed.

(** ** The two GET routes *)

(** C6: GET / succeeds on every invocation with the same body, whose
    [endpoints] mapping has exactly the four POST paths as keys, each with a
    description that is a non-empty text. *)
Theorem root_lists_endpoints `{Libraries} (P : RagPipeline) (body : Json) (st : State) :
  ∃ message endpoints,
    app P GET "/" body st =
      (HttpResponse 200 (JObj [("message", message); ("endpoints", JObj endpoints)]),
       st) ∧
    endpoints.*1 = path <$> [Qa; DoctorMatching; Affirmations; ProductRecommendations] ∧
    Forall (λ kv, ∃ s, kv.2 = json_str s ∧ s ≠ "") endpoints ∧
    ∀ url, url ∈ endpoints.*1 ↔ is_Some (endpoint_of_path url).
Proof.
  do 2 eexists. split; [reflexivity|]. split; [reflexivity|]. split.
  - repeat constructor; eexists; (split; [reflexivity | discriminate]).
  - intros url. unfold endpoint_of_path. cbn [fmap list_fmap fst].
    rewrite !elem_of_cons, elem_of_nil. split.
    + intros [->|[->|[->|[->|[]]]]]; by eexists.
    + repeat case_decide; [tauto..|]. by intros [? [=]].
Qed.

(** C7: GET /health answers, on every invocation and whatever the pipeline and
    the state are, 200 with [status] equal to "healthy" and a message. *)
Theorem health_always_healthy `{Libraries} (P : RagPipeline) (body : Json) (st : State) :
  ∃ message,
    app P GET "/health" body st =
      (HttpResponse 200 (JObj [("status", json_str "healthy");
                               ("message", json_str message)]), st) ∧
    json_get "status"
      (JObj [("status", json_str "healthy"); ("message", json_str message)]) =
      Some (json_str "healthy").
Proof. eexists. split; reflexivity. Qed.

(** ** Determinism *)

Lemma bind_heap_determined {A B} (m : M A) (k : A → M B) :
  heap_determined m → (∀ a, heap_determined (k a)) → heap_determined (bind m k).
Proof.
  intros Hm Hk h cs1 cs2. unfold bind.
  destruct (Hm h cs1 cs2) as [Ho Hh].
  destruct (m {| heap := h; calls := cs1 |}) as [o1 [h1 cs1']],
           (m {| heap := h; calls := cs2 |}) as [o2 [h2 cs2']].
  cbn in Ho, Hh. subst o2 h2. destruct o1 as [a|e]; [apply Hk | done].
Qed.

Section Determined.
Context `{Libraries}.

Lemma ret_heap_determined {A} (a : A) : heap_determined (ret a).
Proof. done. Qed.

Lemma py_getitem_heap_determined v key : heap_determined (py_getitem v key).
Proof. intros h cs1 cs2. unfold py_getitem. cbn [heap]. by repeat case_match. Qed.

Lemma py_len_heap_determined v : heap_determined (py_len v).
Proof. intros h cs1 cs2. unfold py_len. cbn [heap]. by repeat case_match. Qed.

Lemma new_list_heap_determined xs : heap_determined (new_list xs).
Proof. done. Qed.

Lemma py_get_heap_determined v key default_expr :
  heap_determined default_expr → heap_determined (py_get v key default_expr).
Proof.
  intros Hd. unfold py_get.
  apply bind_heap_determined; [|intros _; apply bind_heap_determined; [done|]].
  - intros h cs1 cs2. unfold py_getattr_get. cbn [heap]. by repeat case_match.
  - intros dflt h cs1 cs2. unfold dict_get. cbn [heap]. by repeat case_match.
Qed.

Lemma QAResponse_new_heap_determined v n : heap_determined (QAResponse.new v n).
Proof. intros h cs1 cs2. unfold QAResponse.new. cbn [heap]. by case_match. Qed.

Lemma DoctorMatchingResponse_new_heap_determined v n :
  heap_determined (DoctorMatchingResponse.new v n).
Proof.
  intros h cs1 cs2. unfold DoctorMatchingResponse.new. cbn [heap]. by case_match.
Qed.

Lemma AffirmationResponse_new_heap_determined v w n :
  heap_determined (AffirmationResponse.new v w n).
Proof.
  intros h cs1 cs2. unfold AffirmationResponse.new. cbn [heap].
  by repeat case_match.
Qed.

Lemma ProductRecommendationResponse_new_heap_determined v w n :
  heap_determined (ProductRecommendationResponse.new v w n).
Proof.
  intros h cs1 cs2. unfold ProductRecommendationResponse.new. cbn [heap].
  by repeat case_match.
Qed.
End Determined.

#[local] Hint Resolve ret_heap_determined py_getitem_heap_determined
  py_len_heap_determined new_list_heap_determined py_get_heap_determined
  QAResponse_new_heap_determined DoctorMatchingResponse_new_heap_determined
  AffirmationResponse_new_heap_determined
  ProductRecommendationResponse_new_heap_determined : handler.

Ltac determined :=
  first
    [ solve [auto with handler]
    | apply bind_heap_determined; [determined | intros ?; determined] ].

Lemma result_to_body_heap_determined `{Libraries} ep result :
  heap_determined (result_to_body ep result).
Proof. destruct ep; simpl; determined. Qed.

Lemma answer_heap_determined `{Libraries} ep o h cs1 cs2 :
  (answer ep o {| heap := h; calls := cs1 |}).1 =
    (answer ep o {| heap := h; calls := cs2 |}).1 ∧
  heap (answer ep o {| heap := h; calls := cs1 |}).2 =
    heap (answer ep o {| heap := h; calls := cs2 |}).2.
Proof.
  unfold answer. destruct o as [result|e]; [|done].
  destruct (result_to_body_heap_determined ep result h cs1 cs2) as [Ho Hh].
  destruct (result_to_body ep result {| heap := h; calls := cs1 |}) as [o1 st1],
           (result_to_body ep result {| heap := h; calls := cs2 |}) as [o2 st2].
  cbn in Ho, Hh. subst o2. by destruct o1.
Qed.

(** C10: every POST route is a function of the request body and of what the
    pipeline does for it.  Two runs on the same body, with any two pipelines
    and from any two states, in which the body is rejected in both, or the
    pipeline returns the same value and leaves the same heap, or raises the
    same fault, give the same HTTP response. *)
Theorem post_deterministic `{Libraries} (P1 P2 : RagPipeline) (ep : Endpoint)
    (body : Json) (st1 st2 : State) :
  pipeline_outcome P1 ep body st1 = pipeline_outcome P2 ep body st2 →
  (post P1 ep body st1).1 = (post P2 ep body st2).1.
Proof.
  unfold pipeline_outcome. intros Hsame.
  destruct (pipeline_call P1 ep body) as [[c1 f1]|] eqn:Hcall1,
           (pipeline_call P2 ep body) as [[c2 f2]|] eqn:Hcall2; simplify_eq/=.
  - destruct (f1 (heap st1)) as [o h] eqn:Hf1.
    rewrite (post_answer P1 ep body st1 c1 f1 o h Hcall1 Hf1).
    rewrite (post_answer P2 ep body st2 c2 f2 o h Hcall2 (eq_sym Hsame)).
    apply answer_heap_determined.
  - by rewrite (post_rejected P1 ep body st1 Hcall1),
               (post_rejected P2 ep body st2 Hcall2).
Qed.

(** ** When a mapping leads to a success *)

Lemma result_to_body_success `{Libraries} ep st1 l d ld docs j :
  heap st1 !! l = Some (ODict d) →
  d !! "retrieved_documents" = Some (VRef ld) →
  heap st1 !! ld = Some (OList docs) →
  (result_to_body ep (VRef l) st1).1 = Returns j ↔
  ∃ response s items,
    d !! "response" = Some response ∧
    validate_str_val response = Some s ∧
    optional_items ep (heap st1) d items ∧
    j = success_body ep s items (Z.of_nat (length docs)).
Proof.
  intros Hl Hd Hld. unfold optional_items.
  destruct ep; cbn [result_to_body optional_key success_body]; unfold bind;
    on_dict Hl;
    (destruct (d !! "response") as [response|];
     [|split; [done | by intros (?&?&?&?&_)]]);
    cbn beta iota; repeat on_dict Hl; rewrite Hd; cbn beta iota; on_list Hld;
    cbn beta iota.
  - unfold QAResponse.new. destruct (validate_str_val response) as [s|] eqn:Hs;
      cbn; unfold ret; cbn; split.
    + intros [= <-]. by exists response, s, [].
    + intros (?&?&?&?&?&_&->). by simplify_eq.
    + done.
    + intros (?&?&?&?&?&_). by simplify_eq.
  - unfold DoctorMatchingResponse.new.
    destruct (validate_str_val response) as [s|] eqn:Hs; cbn; unfold ret; cbn; split.
    + intros [= <-]. by exists response, s, [].
    + intros (?&?&?&?&?&_&->). by simplify_eq.
    + done.
    + intros (?&?&?&?&?&_). by simplify_eq.
  - unfold AffirmationResponse.new. cbn [heap].
    destruct (validate_str_val response) as [s|] eqn:Hs,
             (validate_list_str _ _) as [items|] eqn:Hitems;
      cbn; unfold ret; cbn; split;
      first [ done
            | intros [= <-]; by exists response, s, items
            | intros (?&?&?&?&?&?&->); by simplify_eq
            | intros (?&?&?&?&?&?&_); by simplify_eq ].
  - unfold ProductRecommendationResponse.new. cbn [heap].
    destruct (validate_str_val response) as [s|] eqn:Hs,
             (validate_list_str _ _) as [items|] eqn:Hitems;
      cbn; unfold ret; cbn; split;
      first [ done
            | intros [= <-]; by exists response, s, items
            | intros (?&?&?&?&?&?&->); by simplify_eq
            | intros (?&?&?&?&?&?&_); by simplify_eq ].
Qed.

(** ** The count of retrieved documents *)

Lemma optional_field_items `{Libraries} ep (h : Heap) (d : gmap string PyVal)
    (items : list string) :
  optional_field ep h d items → optional_items ep h d items.
Proof.
  unfold optional_field, optional_items.
  destruct (optional_key ep) as [key|]; [|done].
  destruct (d !! key) as [v|].
  - intros (la & -> & Hla). cbn [default from_option id].
    unfold validate_list_str. rewrite (obj_at_alloc _ _ _ _ Hla).
    apply mapM_validate_str_val.
  - intros ->. apply validate_new_list.
Qed.

Lemma success_body_count (ep : Endpoint) (s : string) (items : list string) (n : Z) :
  json_get "retrieved_documents_count" (success_body ep s items n) =
    Some (json_int n).
Proof. by destruct ep. Qed.

(** C1: for every POST endpoint, if the pipeline returns a mapping whose
    [retrieved_documents] is a list of length k, then every success response
    has [retrieved_documents_count] equal to k; and the response is a success,
    with that count, as soon as the mapping is well formed: [response] is a
    text and the optional field, on the two routes that have one, is absent
    or a list of texts. *)
Theorem count_is_length `{Libraries} (P : RagPipeline) (ep : Endpoint) (body : Json)
    (st : State) (c : Call) (f : Heap → Outcome PyVal * Heap) (l ld : nat)
    (h' : Heap) (d : gmap string PyVal) (docs : list PyVal) :
  pipeline_call P ep body = Some (c, f) →
  f (heap st) = (Returns (VRef l), h') →
  h' !! l = Some (ODict d) →
  d !! "retrieved_documents" = Some (VRef ld) →
  h' !! ld = Some (OList docs) →
  (∀ j st', post P ep body st = (HttpResponse 200 j, st') →
     json_get "retrieved_documents_count" j =
       Some (json_int (Z.of_nat (length docs)))) ∧
  (∀ s items,
     d !! "response" = Some (VAtom (AStr s)) →
     optional_field ep h' d items →
     (post P ep body st).1 =
       HttpResponse 200 (success_body ep s items (Z.of_nat (length docs))) ∧
     json_get "retrieved_documents_count"
       (success_body ep s items (Z.of_nat (length docs))) =
       Some (json_int (Z.of_nat (length docs)))).
Proof.
  intros Hcall Hf Hl Hd Hld.
  rewrite (post_answer P ep body st c f _ h' Hcall Hf). unfold answer. split.
  - intros j st'.
    destruct (result_to_body ep (VRef l) _) as [[j'|e] st2] eqn:Hbody;
      intros [= <- <-].
    exact (result_to_body_count ep {| heap := h'; calls := calls st ++ [c] |}
             l d ld docs _ _ Hl Hd Hld Hbody).
  - intros s items Hr Hitems. split; [|apply success_body_count].
    assert ((result_to_body ep (VRef l)
               {| heap := h'; calls := calls st ++ [c] |}).1 =
            Returns (success_body ep s items (Z.of_nat (length docs)))) as Hbody.
    { apply (result_to_body_success ep _ l d ld docs); [done..|].
      exists (VAtom (AStr s)), s, items. split; [done|].
      split; [apply validate_str_str|]. split; [|done].
      by apply optional_field_items. }
    destruct (result_to_body ep (VRef l) _) as [[j|e] st2]; by simplify_eq/=.
Qed.

Lemma count_is_length_witness :
  (@post pydantic2 (constant_pipeline (Returns (VRef 1)) two_documents)
     DoctorMatching doctor_body initial_state).1 =
    HttpResponse 200
      (JObj [("response", json_str "It is...");
             ("retrieved_documents_count", json_int 2)]) ∧
  json_get "retrieved_documents_count"
    (JObj [("response", json_str "It is...");
           ("retrieved_documents_count", json_int 2)]) =
    Some (json_int 2).
Proof.
  exact (proj2
    (@count_is_length pydantic2
       (constant_pipeline (Returns (VRef 1)) two_documents) DoctorMatching
       doctor_body initial_state _ _ 1%nat 2%nat two_documents
       (<["response" := VAtom (AStr "It is...")]>
          (<["retrieved_documents" := VRef 2]> ∅))
       [VRef 3; VRef 4] eq_refl eq_refl eq_refl eq_refl eq_refl)
    "It is..." [] eq_refl eq_refl).
Defined.

(** X15: an optional field the mapping has, a list of texts, is passed on as
    it is, in its order: the empty sequence is the default, not the rule. *)
Lemma optional_field_passed_on `{Libraries} (P : RagPipeline) (ep : Endpoint)
    (key : string) (body : Json) (st : State) (c : Call)
    (f : Heap → Outcome PyVal * Heap) (l ld la : nat) (h' : Heap)
    (d : gmap string PyVal) (s : string) (docs : list PyVal) (items : list string) :
  optional_key ep = Some key →
  pipeline_call P ep body = Some (c, f) →
  f (heap st) = (Returns (VRef l), h') →
  h' !! l = Some (ODict d) →
  d !! key = Some (VRef la) →
  h' !! la = Some (OList ((λ s, VAtom (AStr s)) <$> items)) →
  d !! "response" = Some (VAtom (AStr s)) →
  d !! "retrieved_documents" = Some (VRef ld) →
  h' !! ld = Some (OList docs) →
  (post P ep body st).1 =
    HttpResponse 200 (success_body ep s items (Z.of_nat (length docs))).
Proof.
  intros Hkey Hcall Hf Hl Hk Hla Hr Hd Hld.
  rewrite (post_answer P ep body st c f _ h' Hcall Hf). unfold answer.
  assert ((result_to_body ep (VRef l)
             {| heap := h'; calls := calls st ++ [c] |}).1 =
          Returns (success_body ep s items (Z.of_nat (length docs)))) as Hbody.
  { apply (result_to_body_success ep _ l d ld docs); [done..|].
    exists (VAtom (AStr s)), s, items. split; [done|].
    split; [apply validate_str_str|]. split; [|done].
    unfold optional_items. rewrite Hkey, Hk. cbn [heap default from_option id].
    unfold validate_list_str. rewrite (obj_at_alloc _ _ _ _ Hla).
    apply mapM_validate_str_val. }
  destruct (result_to_body ep (VRef l) _) as [[j|e] st2]; by simplify_eq/=.
Qed.

(** ** Frame: what the response is made of, and what is left untouched *)

Lemma bind_ret_returns {A} (m : M A) (g : A → Json) (st st2 : State) (j : Json) :
  bind m (λ a, ret (g a)) st = (Returns j, st2) → ∃ a, j = g a.
Proof.
  unfold bind, ret. destruct (m st) as [[a|e] st1]; [|done].
  intros [= <- <-]. by exists a.
Qed.

Lemma result_to_body_keys `{Libraries} ep result st1 j st2 :
  result_to_body ep result st1 = (Returns j, st2) →
  json_keys j = response_fields ep.
Proof.
  destruct ep; cbn [result_to_body]; intros Hbody;
    apply bind_ret_returns in Hbody as [r ->]; reflexivity.
Qed.

Lemma validate_list_str_dict_update `{Libraries} (h : Heap) (l : nat)
    (d d2 : gmap string PyVal) (w : PyVal) :
  h !! l = Some (ODict d) →
  validate_list_str (<[l := ODict d2]> h) w = validate_list_str h w.
Proof.
  intros Hl. unfold validate_list_str, obj_at. destruct w as [a|l0]; [done|].
  destruct (decide (l = l0)) as [<-|Hne].
  - by rewrite lookup_insert_eq, Hl.
  - by rewrite lookup_insert_ne.
Qed.

Lemma optional_items_extra_key `{Libraries} ep (h : Heap) (l : nat)
    (d : gmap string PyVal) (k : string) (v : PyVal) (items : list string) :
  h !! l = Some (ODict d) →
  optional_key ep ≠ Some k →
  optional_items ep (<[l := ODict (<[k := v]> d)]> h) (<[k := v]> d) items ↔
  optional_items ep h d items.
Proof.
  intros Hl Hk. unfold optional_items.
  destruct (optional_key ep) as [key|]; [|done].
  rewrite dom_insert_lookup_L by eauto.
  rewrite lookup_insert_ne by congruence.
  rewrite insert_insert_ne by (by eapply fresh_location_ne).
  rewrite (validate_list_str_dict_update _ l d); [done|].
  rewrite lookup_insert_ne; [done | by eapply fresh_location_ne].
Qed.

Lemma result_to_body_extra_key `{Libraries} ep (h : Heap) cs (l ld : nat)
    (d : gmap string PyVal) (docs : list PyVal) (k : string) (v : PyVal) (j : Json) :
  h !! l = Some (ODict d) →
  d !! "retrieved_documents" = Some (VRef ld) →
  h !! ld = Some (OList docs) →
  k ≠ "response" → k ≠ "retrieved_documents" → optional_key ep ≠ Some k →
  (result_to_body ep (VRef l) {| heap := h; calls := cs |}).1 = Returns j →
  (result_to_body ep (VRef l)
     {| heap := <[l := ODict (<[k := v]> d)]> h; calls := cs |}).1 = Returns j.
Proof.
  intros Hl Hd Hld Hk1 Hk2 Hk3 Hrun.
  apply (result_to_body_success ep {| heap := h; calls := cs |} l d ld docs j
           Hl Hd Hld) in Hrun as (response & s & items & Hr & Hs & Hitems & ->).
  assert (l ≠ ld) as Hne by (intros ->; congruence).
  apply (result_to_body_success ep _ l (<[k := v]> d) ld docs).
  - cbn [heap]. apply lookup_insert_eq.
  - by rewrite lookup_insert_ne.
  - cbn [heap]. by rewrite lookup_insert_ne.
  - exists response, s, items. cbn [heap].
    rewrite lookup_insert_ne by done.
    by rewrite optional_items_extra_key.
Qed.

(** C9: for every POST endpoint, the body of a success response has exactly
    the fields its response model declares; every object that is on the heap
    when the pipeline returns, the result mapping among them, is on the heap
    unchanged when the response is made; and a key of the result mapping that
    the handler does not read changes nothing in a success response (the
    mapping's [retrieved_documents] being a list). *)
Theorem response_frame `{Libraries} (P : RagPipeline) (ep : Endpoint) (body : Json)
    (st : State) (c : Call) (f : Heap → Outcome PyVal * Heap) (o : Outcome PyVal)
    (h' : Heap) :
  pipeline_call P ep body = Some (c, f) →
  f (heap st) = (o, h') →
  (∀ j, (post P ep body st).1 = HttpResponse 200 j →
        json_keys j = response_fields ep) ∧
  h' ⊆ heap (post P ep body st).2 ∧
  (∀ (P2 : RagPipeline) (f2 : Heap → Outcome PyVal * Heap) (l ld : nat)
     (d : gmap string PyVal) (docs : list PyVal) (k : string) (v : PyVal) (j : Json),
     o = Returns (VRef l) →
     h' !! l = Some (ODict d) →
     d !! "retrieved_documents" = Some (VRef ld) →
     h' !! ld = Some (OList docs) →
     k ≠ "response" → k ≠ "retrieved_documents" → optional_key ep ≠ Some k →
     pipeline_call P2 ep body = Some (c, f2) →
     f2 (heap st) = (Returns (VRef l), <[l := ODict (<[k := v]> d)]> h') →
     (post P ep body st).1 = HttpResponse 200 j →
     (post P2 ep body st).1 = HttpResponse 200 j).
Proof.
  intros Hcall Hf. rewrite (post_answer P ep body st c f o h' Hcall Hf).
  split; [|split].
  - intros j. unfold answer. destruct o as [result|e].
    + destruct (result_to_body ep result _) as [[j'|e] st2] eqn:Hbody;
        intros [= <-]. by eapply result_to_body_keys.
    + by destruct (isinstance_Exception e).
  - unfold answer. destruct o as [result|e]; [|done].
    destruct (result_to_body ep result _) as [o2 st2] eqn:Hbody.
    apply result_to_body_allocates in Hbody as [Hsub _]. by destruct o2.
  - intros P2 f2 l ld d docs k v j -> Hl Hd Hld Hk1 Hk2 Hk3 Hcall2 Hf2.
    rewrite (post_answer P2 ep body st c f2 _ _ Hcall2 Hf2). unfold answer.
    pose proof (result_to_body_extra_key ep h' (calls st ++ [c]) l ld d docs k v)
      as Hextra.
    destruct (result_to_body ep (VRef l) {| heap := h'; calls := _ |})
      as [[j1|e1] st1]; intros [= <-].
    specialize (Hextra j1 Hl Hd Hld Hk1 Hk2 Hk3 eq_refl).
    destruct (result_to_body ep (VRef l) _) as [[j2|e2] st2]; by simplify_eq/=.
Qed.

Lemma response_frame_witness :
  json_keys (JObj [("response", json_str "It is...");
                   ("retrieved_documents_count", json_int 2)]) =
    ["response"; "retrieved_documents_count"] ∧
  two_documents ⊆
    heap (@post pydantic2 (constant_pipeline (Returns (VRef 1)) two_documents) Qa
            qa_body initial_state).2 ∧
  (@post pydantic2 (constant_pipeline (Returns (VRef 1)) two_documents_sources) Qa
     qa_body initial_state).1 =
    HttpResponse 200 (JObj [("response", json_str "It is...");
                            ("retrieved_documents_count", json_int 2)]).
Proof.
  destruct (@response_frame pydantic2
              (constant_pipeline (Returns (VRef 1)) two_documents) Qa qa_body
              initial_state _ _ _ _ eq_refl eq_refl) as (Hkeys & Hframe & Hextra).
  split; [apply Hkeys; by vm_compute|]. split; [exact Hframe|].
  eapply (Hextra (constant_pipeline (Returns (VRef 1)) two_documents_sources) _
           1%nat 2%nat
           (<["response" := VAtom (AStr "It is...")]>
              (<["retrieved_documents" := VRef 2]> ∅))
           [VRef 3; VRef 4] "sources" (VRef 2));
    first [reflexivity | discriminate | by vm_compute].
Defined.

Lemma post_deterministic_witness :
  (@post pydantic2 (constant_pipeline (Returns (VRef 1)) two_documents) Qa qa_body
     initial_state).1 =
  (@post pydantic2 qa_only_pipeline Qa qa_body busy_state).1.
Proof.
  exact (@post_deterministic pydantic2
           (constant_pipeline (Returns (VRef 1)) two_documents) qa_only_pipeline
           Qa qa_body initial_state busy_state eq_refl).
Defined.

(** * Further properties of the handlers *)

(** ** What a success response carries *)

Lemma py_len_sized (st : State) (v : PyVal) (n : nat) :
  sized (heap st) v = Some n → py_len v st = (Returns (Z.of_nat n), st).
Proof.
  unfold sized, py_len, obj_at. destruct v as [[]|l]; try done.
  - by intros [= <-].
  - destruct (heap st !! l) as [[d|xs|cls]|]; try done; by intros [= <-].
Qed.

Lemma sized_alloc (h : Heap) (v : PyVal) (n : nat) (x : PyObj) :
  sized h v = Some n → sized (<[fresh (dom h) := x]> h) v = Some n.
Proof.
  unfold sized. destruct v as [a|l]; [done|].
  destruct (h !! l) as [o|] eqn:Hl; [|done].
  rewrite lookup_insert_ne; [by rewrite Hl | by eapply fresh_location_ne].
Qed.

Lemma py_len_unsized (st : State) (v : PyVal) (ty : string) :
  unsized (heap st) v = Some ty →
  py_len v st =
    (Raises (TypeError ("object of type '" +:+ ty +:+ "' has no len()")), st).
Proof.
  unfold unsized, py_len, obj_at. destruct v as [[]|l]; try done;
    try by intros [= <-].
  destruct (heap st !! l) as [[d|xs|cls]|]; try done; by intros [= <-].
Qed.

Lemma unsized_alloc (h : Heap) (v : PyVal) (ty : string) (x : PyObj) :
  unsized h v = Some ty → unsized (<[fresh (dom h) := x]> h) v = Some ty.
Proof.
  unfold unsized. destruct v as [a|l]; [done|].
  destruct (h !! l) as [o|] eqn:Hl; [|done].
  rewrite lookup_insert_ne; [by rewrite Hl | by eapply fresh_location_ne].
Qed.

(** Resolving [len] on a value known to have, or not to have, a length. *)
Ltac on_len Hn :=
  first
    [ erewrite py_len_sized by (first [exact Hn | apply sized_alloc; exact Hn])
    | erewrite py_len_unsized by
        (first [exact Hn | apply unsized_alloc; exact Hn]) ].

Lemma result_to_body_sized `{Libraries} ep st1 l d documents n j st2 :
  heap st1 !! l = Some (ODict d) →
  d !! "retrieved_documents" = Some documents →
  sized (heap st1) documents = Some n →
  result_to_body ep (VRef l) st1 = (Returns j, st2) →
  json_get "retrieved_documents_count" j = Some (json_int (Z.of_nat n)) ∧
  ∃ response s,
    d !! "response" = Some response ∧
    validate_str_val response = Some s ∧
    json_get "response" j = Some (json_str s).
Proof.
  intros Hl Hd Hn.
  destruct ep; cbn [result_to_body]; unfold bind; on_dict Hl;
    (destruct (d !! "response") as [response|]; [|done]); cbn beta iota;
    repeat on_dict Hl; rewrite Hd; cbn beta iota; on_len Hn; cbn beta iota.
  - unfold QAResponse.new.
    destruct (validate_str_val response) as [s|] eqn:Hs; cbn; unfold ret;
      intros ?; simplify_eq. split; [done|]. by exists response, s.
  - unfold DoctorMatchingResponse.new.
    destruct (validate_str_val response) as [s|] eqn:Hs; cbn; unfold ret;
      intros ?; simplify_eq. split; [done|]. by exists response, s.
  - unfold AffirmationResponse.new.
    destruct (validate_str_val response) as [s|] eqn:Hs,
             (validate_list_str _ _); cbn; unfold ret; intros ?; simplify_eq.
    split; [done|]. by exists response, s.
  - unfold ProductRecommendationResponse.new.
    destruct (validate_str_val response) as [s|] eqn:Hs,
             (validate_list_str _ _); cbn; unfold ret; intros ?; simplify_eq.
    split; [done|]. by exists response, s.
Qed.

(** X1: on every POST route, the [response] of a success response is the
    text the pipeline put under [response], unchanged. *)
Theorem response_text_passed_on `{Libraries} (P : RagPipeline) (ep : Endpoint)
    (body : Json) (st : State) (c : Call) (f : Heap → Outcome PyVal * Heap)
    (l : nat) (h' : Heap) (d : gmap string PyVal) (s : string)
    (documents : PyVal) (n : nat) (j : Json) (st' : State) :
  pipeline_call P ep body = Some (c, f) →
  f (heap st) = (Returns (VRef l), h') →
  h' !! l = Some (ODict d) →
  d !! "response" = Some (VAtom (AStr s)) →
  d !! "retrieved_documents" = Some documents →
  sized h' documents = Some n →
  post P ep body st = (HttpResponse 200 j, st') →
  json_get "response" j = Some (json_str s).
Proof.
  intros Hcall Hf Hl Hr Hd Hn.
  rewrite (post_answer P ep body st c f _ h' Hcall Hf). unfold answer.
  destruct (result_to_body ep (VRef l) _) as [[j'|e] st2] eqn:Hbody;
    intros [= <- <-].
  destruct (result_to_body_sized ep {| heap := h'; calls := calls st ++ [c] |}
              l d documents n _ _ Hl Hd Hn Hbody)
    as (_ & response & s' & Hr' & Hs & Hj).
  rewrite Hr in Hr'. injection Hr' as <-. cbn in Hs.
  rewrite validate_str_str in Hs. by injection Hs as <-.
Qed.

(** X2: [len] is all the handlers ask of [retrieved_documents]: when it is a
    text or a mapping rather than a list, the count of a success response is
    the number of its characters or of its keys. *)
Theorem count_is_len_of_sized `{Libraries} (P : RagPipeline) (ep : Endpoint)
    (body : Json) (st : State) (c : Call) (f : Heap → Outcome PyVal * Heap)
    (l : nat) (h' : Heap) (d : gmap string PyVal) (documents : PyVal) (n : nat)
    (j : Json) (st' : State) :
  pipeline_call P ep body = Some (c, f) →
  f (heap st) = (Returns (VRef l), h') →
  h' !! l = Some (ODict d) →
  d !! "retrieved_documents" = Some documents →
  sized h' documents = Some n →
  post P ep body st = (HttpResponse 200 j, st') →
  json_get "retrieved_documents_count" j = Some (json_int (Z.of_nat n)).
Proof.
  intros Hcall Hf Hl Hd Hn.
  rewrite (post_answer P ep body st c f _ h' Hcall Hf). unfold answer.
  destruct (result_to_body ep (VRef l) _) as [[j'|e] st2] eqn:Hbody;
    intros [= <- <-].
  by destruct (result_to_body_sized ep {| heap := h'; calls := calls st ++ [c] |}
                 l d documents n _ _ Hl Hd Hn Hbody) as [? _].
Qed.

(** ** Results the handlers cannot use *)

Lemma result_to_body_not_dict `{Libraries} ep st1 result :
  is_dict (heap st1) result = false →
  ∃ msg,
    result_to_body ep result st1 = (Raises (TypeError msg), st1) ∧
    (result = VAtom ANone → msg = "'NoneType' object is not subscriptable").
Proof.
  unfold is_dict. intros Hd.
  destruct ep; cbn [result_to_body]; unfold bind, py_getitem;
    destruct result as [[]|l];
    try (eexists; split; [reflexivity | by intros [=]]);
    destruct (obj_at (heap st1) l); try done;
    eexists; (split; [reflexivity | by intros [=]]).
Qed.

(** X3: a pipeline result that is no [dict] ([None], a number, a text, a
    list, any other object) is answered 500 with the endpoint's prefix: the
    first subscript raises [TypeError] inside the [try] block.  For [None]
    the detail ends with "'NoneType' object is not subscriptable". *)
Theorem non_mapping_result_answered_500 `{Libraries} (P : RagPipeline)
    (ep : Endpoint) (body : Json) (st : State) (c : Call)
    (f : Heap → Outcome PyVal * Heap) (result : PyVal) (h' : Heap) :
  pipeline_call P ep body = Some (c, f) →
  f (heap st) = (Returns result, h') →
  is_dict h' result = false →
  ∃ msg,
    post P ep body st =
      (HttpResponse 500 (detail_body (json_str (error_prefix ep +:+ msg))),
       {| heap := h'; calls := calls st ++ [c] |}) ∧
    (result = VAtom ANone → msg = "'NoneType' object is not subscriptable").
Proof.
  intros Hcall Hf Hd.
  rewrite (post_answer P ep body st c f _ h' Hcall Hf). unfold answer.
  destruct (result_to_body_not_dict ep {| heap := h'; calls := calls st ++ [c] |}
              result Hd) as (msg & -> & Hnone).
  by exists msg.
Qed.

Lemma non_mapping_result_answered_500_witness :
  ∃ msg,
    @post pydantic2 (constant_pipeline (Returns (VAtom ANone)) ∅) Qa qa_body
      initial_state =
      (HttpResponse 500
         (detail_body (json_str ("Error processing Q&A request: " +:+ msg))),
       {| heap := ∅; calls := [Call_chatbot_qa "What is perimenopause?"] |}) ∧
    (VAtom ANone = VAtom ANone → msg = "'NoneType' object is not subscriptable").
Proof.
  exact (@non_mapping_result_answered_500 pydantic2
           (constant_pipeline (Returns (VAtom ANone)) ∅) Qa qa_body initial_state
           _ _ (VAtom ANone) ∅ eq_refl eq_refl eq_refl).
Defined.

Lemma result_to_body_unsized `{Libraries} ep st1 l d response documents ty :
  heap st1 !! l = Some (ODict d) →
  d !! "response" = Some response →
  d !! "retrieved_documents" = Some documents →
  unsized (heap st1) documents = Some ty →
  (result_to_body ep (VRef l) st1).1 =
    Raises (TypeError ("object of type '" +:+ ty +:+ "' has no len()")).
Proof.
  intros Hl Hr Hd Hty.
  destruct ep; cbn [result_to_body]; unfold bind; on_dict Hl; rewrite Hr;
    cbn beta iota; repeat on_dict Hl; rewrite Hd; cbn beta iota; on_len Hty;
    done.
Qed.

(** X4: when [retrieved_documents] is present but has no [len] ([None], a
    number, a single document), the endpoint answers 500 with its prefix and
    "object of type '...' has no len()", whatever the other keys hold. *)
Theorem unsized_documents_answered_500 `{Libraries} (P : RagPipeline)
    (ep : Endpoint) (body : Json) (st : State) (c : Call)
    (f : Heap → Outcome PyVal * Heap) (l : nat) (h' : Heap)
    (d : gmap string PyVal) (response documents : PyVal) (ty : string) :
  pipeline_call P ep body = Some (c, f) →
  f (heap st) = (Returns (VRef l), h') →
  h' !! l = Some (ODict d) →
  d !! "response" = Some response →
  d !! "retrieved_documents" = Some documents →
  unsized h' documents = Some ty →
  (post P ep body st).1 =
    HttpResponse 500
      (detail_body (json_str (error_prefix ep +:+
                              "object of type '" +:+ ty +:+ "' has no len()"))).
Proof.
  intros Hcall Hf Hl Hr Hd Hty.
  rewrite (post_answer P ep body st c f _ h' Hcall Hf). unfold answer.
  pose proof (result_to_body_unsized ep {| heap := h'; calls := calls st ++ [c] |}
                l d response documents ty Hl Hr Hd Hty) as Hbody.
  destruct (result_to_body ep (VRef l) _) as [[j|e] st2]; by simplify_eq/=.
Qed.

Lemma unsized_documents_answered_500_witness :
  (@post pydantic2 (constant_pipeline (Returns (VRef 1)) no_documents) Qa qa_body
     initial_state).1 =
    HttpResponse 500
      (detail_body (json_str ("Error processing Q&A request: " +:+
                              "object of type '" +:+ "NoneType" +:+ "' has no len()"))).
Proof.
  exact (@unsized_documents_answered_500 pydantic2
           (constant_pipeline (Returns (VRef 1)) no_documents) Qa qa_body
           initial_state _ _ 1%nat no_documents
           (<["response" := VAtom (AStr "It is...")]>
              (<["retrieved_documents" := VAtom ANone]> ∅))
           (VAtom (AStr "It is...")) (VAtom ANone) "NoneType"
           eq_refl eq_refl eq_refl eq_refl eq_refl eq_refl).
Defined.

Lemma response_text_passed_on_witness :
  json_get "response"
    (JObj [("response", json_str "It is...");
           ("retrieved_documents_count", json_int 2)]) =
    Some (json_str "It is...").
Proof.
  assert (Hpost :
    @post pydantic2 (constant_pipeline (Returns (VRef 1)) two_documents) Qa qa_body
      initial_state =
    (HttpResponse 200
       (JObj [("response", json_str "It is...");
              ("retrieved_documents_count", json_int 2)]),
     {| heap := two_documents;
        calls := [Call_chatbot_qa "What is perimenopause?"] |})) by (by vm_compute).
  exact (@response_text_passed_on pydantic2
           (constant_pipeline (Returns (VRef 1)) two_documents) Qa qa_body
           initial_state _ _ 1%nat two_documents
           (<["response" := VAtom (AStr "It is...")]>
              (<["retrieved_documents" := VRef 2]> ∅))
           "It is..." (VRef 2) 2%nat _ _
           eq_refl eq_refl eq_refl eq_refl eq_refl eq_refl Hpost).
Defined.

Lemma count_is_len_of_sized_witness :
  @post pydantic2 (constant_pipeline (Returns (VRef 1)) documents_text) Qa qa_body
    initial_state =
    (HttpResponse 200
       (JObj [("response", json_str "It is...");
              ("retrieved_documents_count", json_int 2)]),
     {| heap := documents_text;
        calls := [Call_chatbot_qa "What is perimenopause?"] |}) ∧
  json_get "retrieved_documents_count"
    (JObj [("response", json_str "It is...");
           ("retrieved_documents_count", json_int 2)]) =
    Some (json_int 2).
Proof.
  assert (Hpost :
    @post pydantic2 (constant_pipeline (Returns (VRef 1)) documents_text) Qa qa_body
      initial_state =
    (HttpResponse 200
       (JObj [("response", json_str "It is...");
              ("retrieved_documents_count", json_int 2)]),
     {| heap := documents_text;
        calls := [Call_chatbot_qa "What is perimenopause?"] |})) by (by vm_compute).
  split; [exact Hpost|].
  exact (@count_is_len_of_sized pydantic2
           (constant_pipeline (Returns (VRef 1)) documents_text) Qa qa_body
           initial_state _ _ 1%nat documents_text
           (<["response" := VAtom (AStr "It is...")]>
              (<["retrieved_documents" := VAtom (AStr "日本")]> ∅))
           (VAtom (AStr "日本")) 2%nat _ _
           eq_refl eq_refl eq_refl eq_refl eq_refl Hpost).
Defined.

(** ** Fields the response model rejects *)

Lemma result_to_body_invalid_response `{Libraries} ep st1 l d response documents n :
  heap st1 !! l = Some (ODict d) →
  d !! "response" = Some response →
  validate_str_val response = None →
  d !! "retrieved_documents" = Some documents →
  sized (heap st1) documents = Some n →
  ∃ errors h2,
    (result_to_body ep (VRef l) st1).1 =
      Raises (ValidationError (validation_error_str (response_model ep) errors h2)) ∧
    ("response", response) ∈ errors.
Proof.
  intros Hl Hr Hv Hd Hn.
  destruct ep; cbn [result_to_body response_model]; unfold bind; on_dict Hl;
    rewrite Hr; cbn beta iota; repeat on_dict Hl; rewrite Hd; cbn beta iota;
    on_len Hn; cbn beta iota.
  - unfold QAResponse.new. rewrite Hv. do 2 eexists.
    split; [reflexivity | by left].
  - unfold DoctorMatchingResponse.new. rewrite Hv. do 2 eexists.
    split; [reflexivity | by left].
  - unfold AffirmationResponse.new. rewrite Hv. do 2 eexists.
    split; [reflexivity | by left].
  - unfold ProductRecommendationResponse.new. rewrite Hv. do 2 eexists.
    split; [reflexivity | by left].
Qed.

(** X5: the response model is built inside the [try] block, so a [response]
    its validator rejects (a list, for one) is answered 500 with the
    endpoint's prefix and the text of Pydantic's [ValidationError], which
    names the field. *)
Theorem invalid_response_answered_500 `{Libraries} (P : RagPipeline)
    (ep : Endpoint) (body : Json) (st : State) (c : Call)
    (f : Heap → Outcome PyVal * Heap) (l : nat) (h' : Heap)
    (d : gmap string PyVal) (response documents : PyVal) (n : nat) :
  pipeline_call P ep body = Some (c, f) →
  f (heap st) = (Returns (VRef l), h') →
  h' !! l = Some (ODict d) →
  d !! "response" = Some response →
  validate_str_val response = None →
  d !! "retrieved_documents" = Some documents →
  sized h' documents = Some n →
  ∃ errors h2,
    (post P ep body st).1 =
      HttpResponse 500
        (detail_body (json_str (error_prefix ep +:+
           validation_error_str (response_model ep) errors h2))) ∧
    ("response", response) ∈ errors.
Proof.
  intros Hcall Hf Hl Hr Hv Hd Hn.
  rewrite (post_answer P ep body st c f _ h' Hcall Hf). unfold answer.
  destruct (result_to_body_invalid_response ep
              {| heap := h'; calls := calls st ++ [c] |} l d response documents n
              Hl Hr Hv Hd Hn) as (errors & h2 & Hbody & Hin).
  exists errors, h2. split; [|done].
  destruct (result_to_body ep (VRef l) _) as [[j|e] st2]; by simplify_eq/=.
Qed.

Lemma invalid_response_answered_500_witness :
  ∃ errors h2,
    (@post pydantic2 (constant_pipeline (Returns (VRef 1)) response_list) Qa qa_body
       initial_state).1 =
      HttpResponse 500
        (detail_body (json_str ("Error processing Q&A request: " +:+
           @validation_error_str pydantic2 "QAResponse" errors h2))) ∧
    ("response", VRef 2) ∈ errors.
Proof.
  exact (@invalid_response_answered_500 pydantic2
           (constant_pipeline (Returns (VRef 1)) response_list) Qa qa_body
           initial_state _ _ 1%nat response_list
           (<["response" := VRef 2]> (<["retrieved_documents" := VRef 2]> ∅))
           (VRef 2) (VRef 2) 1%nat
           eq_refl eq_refl eq_refl eq_refl eq_refl eq_refl eq_refl).
Defined.

Lemma result_to_body_optional_scalar `{Libraries} ep key st1 l d s a documents n :
  optional_key ep = Some key →
  heap st1 !! l = Some (ODict d) →
  d !! "response" = Some (VAtom (AStr s)) →
  d !! key = Some (VAtom a) →
  d !! "retrieved_documents" = Some documents →
  sized (heap st1) documents = Some n →
  (result_to_body ep (VRef l) st1).1 =
    Raises (ValidationError
      (validation_error_str (response_model ep) [(key, VAtom a)]
         (<[fresh (dom (heap st1)) := OList []]> (heap st1)))).
Proof.
  intros Hkey Hl Hr Hk Hd Hn.
  destruct ep; cbn in Hkey; simplify_eq; cbn [result_to_body response_model];
    unfold bind; on_dict Hl; rewrite Hr; cbn beta iota; repeat on_dict Hl;
    rewrite Hk, Hd; cbn beta iota; on_len Hn; cbn beta iota.
  - unfold AffirmationResponse.new. cbn [heap default from_option id validate_str_val].
    by rewrite validate_str_str.
  - unfold ProductRecommendationResponse.new.
    cbn [heap default from_option id validate_str_val].
    by rewrite validate_str_str.
Qed.

(** X6: the empty default of [.get] applies only when the key is absent.  On
    /affirmations and /product-recommendations, a mapping that has the key
    with a scalar under it ([None] included) is not given the empty sequence:
    the model rejects the field and the endpoint answers 500 with its prefix
    and the [ValidationError] of that one field. *)
Theorem optional_scalar_not_defaulted `{Libraries} (P : RagPipeline)
    (ep : Endpoint) (key : string) (body : Json) (st : State) (c : Call)
    (f : Heap → Outcome PyVal * Heap) (l : nat) (h' : Heap)
    (d : gmap string PyVal) (s : string) (a : Atom) (documents : PyVal) (n : nat) :
  optional_key ep = Some key →
  pipeline_call P ep body = Some (c, f) →
  f (heap st) = (Returns (VRef l), h') →
  h' !! l = Some (ODict d) →
  d !! "response" = Some (VAtom (AStr s)) →
  d !! key = Some (VAtom a) →
  d !! "retrieved_documents" = Some documents →
  sized h' documents = Some n →
  (post P ep body st).1 =
    HttpResponse 500
      (detail_body (json_str (error_prefix ep +:+
         validation_error_str (response_model ep) [(key, VAtom a)]
           (<[fresh (dom h') := OList []]> h')))).
Proof.
  intros Hkey Hcall Hf Hl Hr Hk Hd Hn.
  rewrite (post_answer P ep body st c f _ h' Hcall Hf). unfold answer.
  pose proof (result_to_body_optional_scalar ep key
                {| heap := h'; calls := calls st ++ [c] |} l d s a documents n
                Hkey Hl Hr Hk Hd Hn) as Hbody.
  destruct (result_to_body ep (VRef l) _) as [[j|e] st2]; by simplify_eq/=.
Qed.

Lemma optional_scalar_not_defaulted_witness :
  (@post pydantic2 (constant_pipeline (Returns (VRef 1)) affirmations_none)
     Affirmations affirmation_body initial_state).1 =
    HttpResponse 500
      (detail_body (json_str ("Error processing affirmation request: " +:+
         @validation_error_str pydantic2 "AffirmationResponse"
           [("affirmations", VAtom ANone)]
           (<[fresh (dom affirmations_none) := OList []]> affirmations_none)))).
Proof.
  exact (@optional_scalar_not_defaulted pydantic2
           (constant_pipeline (Returns (VRef 1)) affirmations_none)
           Affirmations "affirmations" affirmation_body initial_state _ _ 1%nat
           affirmations_none
           (<["affirmations" := VAtom ANone]>
              (<["response" := VAtom (AStr "Here are some affirmations")]>
              (<["retrieved_documents" := VRef 2]> ∅)))
           "Here are some affirmations" ANone (VRef 2) 1%nat
           eq_refl eq_refl eq_refl eq_refl eq_refl eq_refl eq_refl eq_refl).
Defined.

(** X7: a body the request model accepts reaches the pipeline exactly once,
    with the validated field: whatever the pipeline does (return, raise, raise
    outside [Exception]) the route adds that one call to the log and no other;
    nothing is retried. *)
Theorem pipeline_called_once `{Libraries} (P : RagPipeline) (ep : Endpoint)
    (body : Json) (st : State) (c : Call) (f : Heap → Outcome PyVal * Heap) :
  pipeline_call P ep body = Some (c, f) →
  calls (post P ep body st).2 = (calls st ++ [c])%list.
Proof. apply valid_body_one_call. Qed.

Lemma pipeline_called_once_witness :
  calls (@post pydantic2 exiting_pipeline Qa qa_body busy_state).2 =
    [Call_product_recommendation "cooling pillow";
     Call_chatbot_qa "What is perimenopause?"].
Proof.
  exact (@pipeline_called_once pydantic2 exiting_pipeline Qa qa_body busy_state
           _ _ eq_refl).
Defined.

(** ** What the request models let through *)

Lemma mapM_validate_str_json `{Libraries} (l : list string) :
  mapM validate_str_json (json_str <$> l) = Some l.
Proof.
  apply mapM_Some. induction l as [|s l IH]; simpl; constructor; [|done].
  apply validate_str_str.
Qed.

(** X8: no route asks for a non-empty input.  Every text, the empty one
    included, is an acceptable [query], [symptoms] or [user_input], and every
    list of texts, the empty list included, an acceptable [categories]; the
    pipeline function is called with exactly that value. *)
Theorem every_text_reaches_pipeline `{Libraries} (P : RagPipeline) (st : State)
    (q : string) (cats : list string) :
  calls (post P Qa (JObj [("query", json_str q)]) st).2 =
    (calls st ++ [Call_chatbot_qa q])%list ∧
  calls (post P DoctorMatching (JObj [("symptoms", json_str q)]) st).2 =
    (calls st ++ [Call_doctor_symptoms_matching q])%list ∧
  calls (post P Affirmations (JObj [("categories", JList (json_str <$> cats))]) st).2 =
    (calls st ++ [Call_affirmation_recommendation cats])%list ∧
  calls (post P ProductRecommendations (JObj [("user_input", json_str q)]) st).2 =
    (calls st ++ [Call_product_recommendation q])%list.
Proof.
  repeat split.
  - apply (valid_body_one_call P Qa _ st _ (chatbot_qa P q)).
    cbn. rewrite decide_True by done. cbn. by rewrite validate_str_str.
  - apply (valid_body_one_call P DoctorMatching _ st _ (doctor_symptoms_matching P q)).
    cbn. rewrite decide_True by done. cbn. by rewrite validate_str_str.
  - apply (valid_body_one_call P Affirmations _ st _
             (affirmation_recommendation P cats)).
    cbn -[mapM]. rewrite decide_True by done. cbn -[mapM].
    by rewrite mapM_validate_str_json.
  - apply (valid_body_one_call P ProductRecommendations _ st _
             (product_recommendation P q)).
    cbn. rewrite decide_True by done. cbn. by rewrite validate_str_str.
Qed.

Lemma json_member_other (key k : string) (v : Json) (m1 m2 : list (string * Json)) :
  k ≠ key →
  json_member key (m1 ++ (k, v) :: m2) = json_member key (m1 ++ m2).
Proof.
  intros Hne. induction m1 as [|[k1 v1] m1 IH]; simpl.
  - destruct (json_member key m2); [done|]. by rewrite decide_False.
  - by rewrite IH.
Qed.

Lemma pipeline_call_other_member `{Libraries} (P : RagPipeline) (ep : Endpoint)
    (k : string) (v : Json) (m1 m2 : list (string * Json)) :
  k ≠ request_field ep →
  pipeline_call P ep (JObj (m1 ++ (k, v) :: m2)) = pipeline_call P ep (JObj (m1 ++ m2)).
Proof.
  intros Hne.
  destruct ep; cbn [pipeline_call];
    unfold QARequest.parse, DoctorMatchingRequest.parse, AffirmationRequest.parse,
      ProductRecommendationRequest.parse; cbn [json_get];
    by rewrite json_member_other.
Qed.

(** X9: a member of the request body that the request model does not declare
    is ignored: with or without it, an accepted body gets the same response
    and leaves the same state. *)
Theorem undeclared_member_ignored `{Libraries} (P : RagPipeline) (ep : Endpoint)
    (k : string) (v : Json) (m1 m2 : list (string * Json)) (st : State) :
  k ≠ request_field ep →
  is_Some (pipeline_call P ep (JObj (m1 ++ m2))) →
  post P ep (JObj (m1 ++ (k, v) :: m2)) st = post P ep (JObj (m1 ++ m2)) st.
Proof.
  intros Hne [[c f] Hcall].
  pose proof (pipeline_call_other_member P ep k v m1 m2 Hne) as Hsame.
  rewrite Hcall in Hsame.
  destruct (f (heap st)) as [o h'] eqn:Hf.
  by rewrite (post_answer P ep _ st c f o h' Hsame Hf),
             (post_answer P ep _ st c f o h' Hcall Hf).
Qed.

Lemma undeclared_member_ignored_witness :
  @post pydantic2 (constant_pipeline (Returns (VRef 1)) two_documents) Qa
    (JObj [("user", json_str "ada"); ("query", json_str "What is perimenopause?")])
    initial_state =
  @post pydantic2 (constant_pipeline (Returns (VRef 1)) two_documents) Qa
    (JObj [("query", json_str "What is perimenopause?")]) initial_state.
Proof.
  exact (@undeclared_member_ignored pydantic2
           (constant_pipeline (Returns (VRef 1)) two_documents) Qa
           "user" (json_str "ada") [] [("query", json_str "What is perimenopause?")]
           initial_state ltac:(discriminate) (mk_is_Some _ _ eq_refl)).
Defined.

(** ** How a handler ends *)

Lemma try_call_pipeline_ends `{Libraries} {A} (c : Call)
    (f : Heap → Outcome PyVal * Heap) (k : PyVal → M A) (pre : string) (st : State) :
  (∀ v, raises_Exception_only (k v)) →
  handler_ends pre (f (heap st)).1
    (try_except_Exception (bind (call_pipeline c f) k)
       (λ e, raise (HTTPException 500 (pre +:+ py_str e))) st).1.
Proof.
  intros Hk. unfold try_except_Exception, bind, call_pipeline, raise.
  destruct (f (heap st)) as [[result|e] h']; cbn beta iota zeta.
  - destruct (k result _) as [[a|e] st2] eqn:Hkr; cbn; [by eexists|].
    rewrite (Hk _ _ _ _ Hkr). cbn. left. by eexists.
  - destruct (isinstance_Exception e) eqn:He; cbn; [left; by eexists | by right].
Qed.

(** X10: each of the four POST handlers ends in one of three ways.  It
    returns its response model, and then the pipeline returned; or it raises
    [HTTPException] with status 500 and a detail that starts with its prefix;
    or it lets through an exception outside [Exception] that the pipeline
    raised.  No other exception leaves a handler: whatever goes wrong in the
    [try] block with the pipeline's result is reported through the
    [HTTPException]. *)
Theorem handlers_end `{Libraries} (P : RagPipeline) (st : State) :
  (∀ request,
     handler_ends "Error processing Q&A request: "
       (chatbot_qa P (QARequest.query request) (heap st)).1
       (qa_endpoint P request st).1) ∧
  (∀ request,
     handler_ends "Error processing doctor matching request: "
       (doctor_symptoms_matching P (DoctorMatchingRequest.symptoms request)
          (heap st)).1
       (doctor_matching_endpoint P request st).1) ∧
  (∀ request,
     handler_ends "Error processing affirmation request: "
       (affirmation_recommendation P (AffirmationRequest.categories request)
          (heap st)).1
       (affirmations_endpoint P request st).1) ∧
  (∀ request,
     handler_ends "Error processing product recommendation request: "
       (product_recommendation P (ProductRecommendationRequest.user_input request)
          (heap st)).1
       (product_recommendations_endpoint P request st).1).
Proof.
  repeat split; intros request.
  - unfold qa_endpoint. apply try_call_pipeline_ends. intros v; handler_body.
  - unfold doctor_matching_endpoint. apply try_call_pipeline_ends.
    intros v; handler_body.
  - unfold affirmations_endpoint. apply try_call_pipeline_ends.
    intros v; handler_body.
  - unfold product_recommendations_endpoint. apply try_call_pipeline_ends.
    intros v; handler_body.
Qed.

(** X11: the four prefixes tell the endpoints apart: a detail that starts
    with the prefix of one endpoint was not made by another. *)
Theorem detail_identifies_endpoint (ep1 ep2 : Endpoint) (msg : string) :
  String.prefix (error_prefix ep1) (error_prefix ep2 +:+ msg) = true → ep1 = ep2.
Proof. destruct ep1, ep2; first [done | by cbn]. Qed.

Lemma detail_identifies_endpoint_witness :
  String.prefix (error_prefix DoctorMatching)
    (error_prefix DoctorMatching +:+ "index unavailable") = true ∧
  DoctorMatching = DoctorMatching.
Proof.
  split; [reflexivity|].
  exact (detail_identifies_endpoint DoctorMatching DoctorMatching
           "index unavailable" eq_refl).
Defined.

(** ** The router *)

Lemma endpoint_of_path_Some (url : string) (ep : Endpoint) :
  endpoint_of_path url = Some ep → url = path ep.
Proof.
  unfold endpoint_of_path. repeat case_decide; intros [= <-]; done.
Qed.

(** X12: the pipeline is reached through POST on one of the four registered
    paths with a body the request model accepts, and in no other way: every
    other request (any GET, an unknown path, a rejected body) leaves the state
    as it is. *)
Theorem pipeline_reached_only_by_post `{Libraries} (P : RagPipeline)
    (method : Method) (url : string) (body : Json) (st : State) :
  (app P method url body st).2 = st ∨
  (method = POST ∧
   ∃ ep c f,
     url = path ep ∧
     pipeline_call P ep body = Some (c, f) ∧
     calls (app P method url body st).2 = (calls st ++ [c])%list).
Proof.
  unfold app. destruct method.
  - left. repeat case_decide; try done. by destruct (endpoint_of_path url).
  - destruct (endpoint_of_path url) as [ep|] eqn:Hep.
    + destruct (pipeline_call P ep body) as [[c f]|] eqn:Hcall.
      * right. split; [done|]. exists ep, c, f.
        split; [by apply endpoint_of_path_Some|]. split; [done|].
        by apply (valid_body_one_call P ep body st c f).
      * left. by rewrite (post_rejected P ep body st Hcall).
    + left. by repeat case_decide.
Qed.

(** * The port to listen on *)

(** ** Decimal numerals *)

Lemma string_length_app (s t : string) :
  String.length (s +:+ t) = (String.length s + String.length t)%nat.
Proof.
  induction s as [|c s IH]; [done|].
  change (String c s +:+ t) with (String c (s +:+ t)). cbn. by rewrite IH.
Qed.

Lemma is_nat_pretty_N_char (x : N) :
  (x < 10)%N → Ascii.is_nat (pretty_N_char x) = Some (N.to_nat x).
Proof.
  intros Hx. destruct x as [|p]; [reflexivity|].
  do 4 (try (destruct p as [p|p|]; try reflexivity; try lia)).
Qed.

Lemma is_nat_not_sign (c : Ascii.ascii) :
  is_Some (Ascii.is_nat c) → c ≠ "-"%char ∧ c ≠ "+"%char ∧ c ≠ "_"%char.
Proof. intros [n Hn]. repeat split; by intros ->. Qed.

Lemma pretty_N_go_app (x : N) (s t : string) :
  pretty_N_go x s +:+ t = pretty_N_go x (s +:+ t).
Proof.
  revert s. induction (N.lt_wf_0 x) as [x _ IH]; intros s.
  destruct (decide (x = 0)%N) as [->|Hx]; [by rewrite !pretty_N_go_0|].
  rewrite (pretty_N_go_step x s), (pretty_N_go_step x (s +:+ t)) by lia.
  rewrite IH; [reflexivity|].
  apply N.div_lt; lia.
Qed.

Lemma digits_value_snoc (ds : list nat) (n : nat) :
  digits_value (ds ++ [n])%list = (10 * digits_value ds + N.of_nat n)%N.
Proof. unfold digits_value. by rewrite foldl_snoc. Qed.

Lemma scan_pretty_N_go (x : N) (s : string) (ds : list nat) (tail : string) :
  scan_digits false s = Some (ds, tail) →
  ∃ ds',
    scan_digits false (pretty_N_go x s) = Some ((ds' ++ ds)%list, tail) ∧
    digits_value ds' = x ∧
    String.length (pretty_N_go x s) = (length ds' + String.length s)%nat.
Proof.
  revert s ds. induction (N.lt_wf_0 x) as [x _ IH]; intros s ds Hs.
  destruct (decide (x = 0)%N) as [->|Hx].
  { exists []. by rewrite pretty_N_go_0. }
  rewrite pretty_N_go_step by lia.
  assert (x `mod` 10 < 10)%N as Hmod by (apply N.mod_upper_bound; lia).
  destruct (IH (x `div` 10)%N ltac:(apply N.div_lt; lia)
              (String (pretty_N_char (x `mod` 10)) s)
              (N.to_nat (x `mod` 10) :: ds)) as (ds1 & Hscan & Hvalue & Hlen).
  { cbn. rewrite (is_nat_pretty_N_char _ Hmod), Hs. done. }
  exists (ds1 ++ [N.to_nat (x `mod` 10)])%list. split; [|split].
  - by rewrite <-app_assoc.
  - rewrite digits_value_snoc, Hvalue, N2Nat.id.
    pose proof (N.div_mod x 10). lia.
  - rewrite Hlen, length_app. cbn. lia.
Qed.

Lemma head_digit_pretty_N_go (x : N) (s : string) :
  head_digit s = true → head_digit (pretty_N_go x s) = true.
Proof.
  revert s. induction (N.lt_wf_0 x) as [x _ IH]; intros s Hs.
  destruct (decide (x = 0)%N) as [->|Hx]; [by rewrite pretty_N_go_0|].
  rewrite pretty_N_go_step by lia. apply IH; [apply N.div_lt; lia|].
  cbn. apply bool_decide_eq_true.
  rewrite is_nat_pretty_N_char; [done | apply N.mod_upper_bound; lia].
Qed.

(** The numeral of [n] followed by a text that starts with neither a digit
    nor an underscore. *)
Lemma scan_pretty_N (n : N) (tail : string) :
  scan_digits false tail = Some ([], tail) →
  ∃ ds,
    scan_digits false (pretty n +:+ tail) = Some (ds, tail) ∧
    digits_value ds = n ∧
    length ds = String.length (pretty n) ∧
    head_digit (pretty n +:+ tail) = true.
Proof.
  intros Htail. unfold pretty, pretty_N.
  destruct (decide (n = 0)%N) as [->|Hn].
  { exists [0%nat]. change ("0" +:+ tail) with (String "0" tail). cbn.
    by rewrite Htail. }
  destruct (scan_pretty_N_go n tail [] tail Htail) as (ds & Hscan & Hvalue & Hlen).
  exists ds. rewrite pretty_N_go_app. change ("" +:+ tail) with tail.
  rewrite app_nil_r in Hscan. split; [done|]. split; [done|]. split.
  - pose proof (pretty_N_go_app n "" tail) as Happ.
    change ("" +:+ tail) with tail in Happ.
    rewrite <-Happ, string_length_app in Hlen. lia.
  - rewrite pretty_N_go_step by lia. apply head_digit_pretty_N_go.
    cbn. apply bool_decide_eq_true.
    rewrite is_nat_pretty_N_char; [done | apply N.mod_upper_bound; lia].
Qed.

(** ** [int()] on a decimal numeral *)

Section Int.
Context `{Interpreter}.

Lemma int_space_digit (c : Ascii.ascii) :
  is_Some (Ascii.is_nat c) → int_space c = false.
Proof.
  intros [n Hn]. destruct (int_space c) eqn:Hc; [|done].
  destruct (int_space_not_numeral c Hc) as [Hnone _]. congruence.
Qed.

Lemma int_space_minus : int_space "-" = false.
Proof.
  destruct (int_space "-") eqn:Hc; [|done].
  by destruct (int_space_not_numeral _ Hc) as (_ & _ & ? & _).
Qed.

Lemma skip_spaces_app (pre t : string) :
  all_spaces pre = true → skip_spaces (pre +:+ t) = skip_spaces t.
Proof.
  induction pre as [|c pre IH]; [done|]. cbn [all_spaces].
  intros [Hc Hpre]%andb_prop.
  change (String c pre +:+ t) with (String c (pre +:+ t)). cbn [skip_spaces].
  rewrite Hc. by apply IH.
Qed.

Lemma skip_spaces_all (s : string) : all_spaces s = true → skip_spaces s = "".
Proof.
  induction s as [|c s IH]; [done|]. cbn. intros [Hc Hs]%andb_prop.
  rewrite Hc. by apply IH.
Qed.

Lemma skip_spaces_head_digit (s : string) : head_digit s = true → skip_spaces s = s.
Proof.
  destruct s as [|c s]; [done|]. cbn. intros Hc%bool_decide_eq_true.
  by rewrite int_space_digit.
Qed.

Lemma take_sign_head_digit (s : string) :
  head_digit s = true → take_sign s = (false, s).
Proof.
  destruct s as [|c s]; [done|]. cbn. intros Hc%bool_decide_eq_true.
  destruct (is_nat_not_sign c Hc) as (? & ? & _).
  by rewrite !decide_False.
Qed.

Lemma scan_digits_spaces (tail : string) :
  all_spaces tail = true → scan_digits false tail = Some ([], tail).
Proof.
  destruct tail as [|c tail]; [done|]. cbn. intros [Hc _]%andb_prop.
  destruct (int_space_not_numeral c Hc) as (-> & _ & _ & ?).
  by rewrite decide_False.
Qed.

(** The numeral of a natural number between white space, after the sign. *)
Lemma parse_unsigned (negative : bool) (n : N) (post : string) :
  all_spaces post = true →
  (String.length (pretty n) < 640)%nat →
  (if head_digit (pretty n +:+ post) then
     '(ds, tail) ← scan_digits false (pretty n +:+ post);
     if decide (skip_spaces tail = "") then
       if int_digits_ok ds then
         Some (if negative then - Z.of_N (digits_value ds)
               else Z.of_N (digits_value ds))
       else None
     else None
   else None) =
  Some (if negative then - Z.of_N n else Z.of_N n).
Proof.
  intros Hpost Hlen.
  destruct (scan_pretty_N n post (scan_digits_spaces post Hpost))
    as (ds & Hscan & Hvalue & Hds & Hhead).
  rewrite Hhead, Hscan. cbn.
  rewrite decide_True by (by apply skip_spaces_all).
  rewrite int_digits_ok_short by lia. by rewrite Hvalue.
Qed.

Lemma parse_decimal_pretty (z : Z) (pre post : string) :
  all_spaces pre = true →
  all_spaces post = true →
  (String.length (pretty z) < 640)%nat →
  parse_decimal (pre +:+ pretty z +:+ post) = Some z.
Proof.
  intros Hpre Hpost Hlen. unfold parse_decimal. rewrite skip_spaces_app by done.
  destruct z as [|p|p]; unfold pretty, pretty_Z in *.
  - change (skip_spaces ("0" +:+ post)) with
      (if int_space "0" then skip_spaces post else String "0" post).
    rewrite int_space_digit by (by eexists). cbn [take_sign].
    rewrite !decide_False by done.
    apply (parse_unsigned false 0 post Hpost Hlen).
  - destruct (scan_pretty_N (N.pos p) post (scan_digits_spaces post Hpost))
      as (_ & _ & _ & _ & Hhead).
    change (pretty p) with (pretty (N.pos p)) in *.
    rewrite skip_spaces_head_digit, take_sign_head_digit by done.
    apply (parse_unsigned false (N.pos p) post Hpost Hlen).
  - change (pretty p) with (pretty (N.pos p)) in *.
    change (("-" +:+ pretty (N.pos p)) +:+ post) with
      (String "-" (pretty (N.pos p) +:+ post)).
    cbn [skip_spaces]. rewrite int_space_minus. cbn [take_sign].
    rewrite decide_True by done.
    change (String.length ("-" +:+ pretty (N.pos p))) with
      (S (String.length (pretty (N.pos p)))) in Hlen.
    apply (parse_unsigned true (N.pos p) post Hpost). lia.
Qed.

Lemma in_string_skip_spaces (c : Ascii.ascii) (s : string) :
  in_string c s → int_space c = true ∨ in_string c (skip_spaces s).
Proof.
  induction s as [|c' s IH]; [done|]. cbn [skip_spaces].
  destruct (int_space c') eqn:Hc'; [|by right].
  intros [->|Hin]; [by left | by apply IH].
Qed.

Lemma in_string_take_sign (c : Ascii.ascii) (s : string) :
  in_string c s → c = "-"%char ∨ c = "+"%char ∨ in_string c (take_sign s).2.
Proof.
  destruct s as [|c' s]; [done|]. cbn [take_sign].
  destruct (decide (c' = "-"%char)) as [->|Hminus].
  { intros [->|Hin]; [by left | by right; right]. }
  destruct (decide (c' = "+"%char)) as [->|Hplus].
  { intros [->|Hin]; [by right; left | by right; right]. }
  intros Hin. by right; right.
Qed.

Lemma in_string_scan_digits (c : Ascii.ascii) (b : bool) (s : string)
    (ds : list nat) (tail : string) :
  scan_digits b s = Some (ds, tail) →
  in_string c s →
  is_Some (Ascii.is_nat c) ∨ c = "_"%char ∨ in_string c tail.
Proof.
  revert b ds. induction s as [|c' s IH]; intros b ds; [done|].
  cbn [scan_digits in_string].
  destruct (Ascii.is_nat c') as [n|] eqn:Hc'.
  - destruct (scan_digits false s) as [[ds1 tail1]|] eqn:Hs; [|done].
    cbn. intros [= <- <-] [->|Hin]; [left; by eexists | by eapply IH].
  - destruct b; [done|]. case_decide as Hu.
    + intros Hs [->|Hin]; [by right; left | by eapply IH].
    + intros [= <- <-] Hin. by right; right.
Qed.

Lemma in_string_spaces (c : Ascii.ascii) (s : string) :
  skip_spaces s = "" → in_string c s → int_space c = true.
Proof.
  induction s as [|c' s IH]; [done|]. cbn [skip_spaces in_string].
  destruct (int_space c') eqn:Hc'; [|done].
  intros Hs [->|Hin]; [done | by apply IH].
Qed.

(** A text [int()] converts is not empty and has no character from outside
    decimal literals. *)
Lemma parse_decimal_literal (s : string) (z : Z) :
  parse_decimal s = Some z →
  s ≠ "" ∧ ∀ c, in_string c s → ¬ not_in_literal c.
Proof.
  unfold parse_decimal. intros Hparse. split.
  { intros ->. done. }
  intros c Hin (Hspace & Hdigit & Hplus & Hminus & Hunder).
  apply in_string_skip_spaces in Hin as [?|Hin]; [congruence|].
  apply in_string_take_sign in Hin as [?|[?|Hin]]; [done..|].
  destruct (take_sign (skip_spaces s)) as [negative numeral]. cbn [snd] in Hin.
  destruct (head_digit numeral); [|done].
  destruct (scan_digits false numeral) as [[ds tail]|] eqn:Hscan; [|done].
  cbn in Hparse. case_decide as Htail; [|done].
  apply (in_string_scan_digits c _ _ _ _ Hscan) in Hin as [[n Hn]|[?|Hin]];
    [congruence | done |].
  apply (in_string_spaces c tail Htail) in Hin. congruence.
Qed.

Lemma is_ascii_app (s t : string) :
  is_ascii (s +:+ t) = is_ascii s && is_ascii t.
Proof.
  induction s as [|c s IH]; [done|].
  change (String c s +:+ t) with (String c (s +:+ t)). cbn [is_ascii].
  by rewrite IH, andb_assoc.
Qed.

Lemma is_ascii_spaces (s : string) : all_spaces s = true → is_ascii s = true.
Proof.
  induction s as [|c s IH]; [done|]. cbn. intros [Hc Hs]%andb_prop.
  by rewrite (int_space_ascii c Hc), IH.
Qed.

Lemma is_ascii_digit (c : Ascii.ascii) :
  is_Some (Ascii.is_nat c) → is_ascii_char c = true.
Proof. destruct c as [[] [] [] [] [] [] [] []]; by intros [n [=]]. Qed.

Lemma is_ascii_pretty_N_go (x : N) (s : string) :
  is_ascii s = true → is_ascii (pretty_N_go x s) = true.
Proof.
  revert s. induction (N.lt_wf_0 x) as [x _ IH]; intros s Hs.
  destruct (decide (x = 0)%N) as [->|Hx]; [by rewrite pretty_N_go_0|].
  rewrite pretty_N_go_step by lia. apply IH; [apply N.div_lt; lia|].
  cbn [is_ascii]. rewrite Hs, is_ascii_digit; [done|].
  rewrite is_nat_pretty_N_char; [done | apply N.mod_upper_bound; lia].
Qed.

Lemma is_ascii_pretty_Z (z : Z) : is_ascii (pretty z) = true.
Proof.
  destruct z as [|p|p]; unfold pretty, pretty_Z; [done| |].
  - change (pretty p) with (pretty_N_go (N.pos p) "").
    by apply is_ascii_pretty_N_go.
  - change (pretty p) with (pretty_N_go (N.pos p) "").
    change ("-" +:+ pretty_N_go (N.pos p) "") with
      (String "-" (pretty_N_go (N.pos p) "")).
    cbn [is_ascii]. by rewrite is_ascii_pretty_N_go.
Qed.

Lemma parse_int_pretty (z : Z) (pre post : string) :
  all_spaces pre = true →
  all_spaces post = true →
  (String.length (pretty z) < 640)%nat →
  parse_int (pre +:+ pretty z +:+ post) = Some z.
Proof.
  intros Hpre Hpost Hlen. unfold parse_int.
  rewrite !is_ascii_app, (is_ascii_spaces pre), (is_ascii_spaces post),
    is_ascii_pretty_Z by done.
  by apply parse_decimal_pretty.
Qed.

End Int.

(** ** The [__main__] block *)

(** X13: the server listens on every interface, on port 8000 when [PORT] is
    not in the environment, and on the port [PORT] spells when it is a
    decimal numeral (of fewer than 640 digits), white space around it being
    ignored.  No range is checked: a negative numeral or one above 65535 is
    handed to [uvicorn.run] as it is. *)
Theorem port_from_environment `{Interpreter} (environ : gmap string string)
    (z : Z) (pre post : string) :
  all_spaces pre = true →
  all_spaces post = true →
  (String.length (pretty z) < 640)%nat →
  main (<["PORT" := pre +:+ pretty z +:+ post]> environ) = Returns ("0.0.0.0", z) ∧
  main (delete "PORT" environ) = Returns ("0.0.0.0", 8000).
Proof.
  intros Hpre Hpost Hlen. unfold main, environ_get. split.
  - rewrite lookup_insert_eq. cbn [py_int].
    by rewrite (parse_int_pretty z pre post Hpre Hpost Hlen).
  - by rewrite lookup_delete_eq.
Qed.

(** X14: [PORT] set to an ASCII text that is no decimal literal (the empty
    text, or an ASCII text with a character that is neither a digit, a sign,
    an underscore nor white space) does not fall back to 8000: [int()] raises
    [ValueError] and [uvicorn.run] is not reached. *)
Theorem port_not_a_number `{Interpreter} (environ : gmap string string) (s : string) :
  environ !! "PORT" = Some s →
  is_ascii s = true →
  s = "" ∨ (∃ c, in_string c s ∧ not_in_literal c) →
  main environ = Raises (OtherException "ValueError" (int_error_str s)).
Proof.
  intros Hport Hascii Hbad. unfold main, environ_get. rewrite Hport.
  cbn [py_int]. unfold parse_int. rewrite Hascii.
  destruct (parse_decimal s) as [z|] eqn:Hparse; [|done].
  destruct (parse_decimal_literal s z Hparse) as [Hne Hall].
  destruct Hbad as [->|(c & Hin & Hc)]; [done|]. by destruct (Hall c Hin).
Qed.

Lemma port_from_environment_witness :
  @main cpython (<["PORT" := " " +:+ pretty 10000 +:+ " "]> ∅) =
    Returns ("0.0.0.0", 10000) ∧
  @main cpython (delete "PORT" ∅) = Returns ("0.0.0.0", 8000).
Proof.
  exact (@port_from_environment cpython ∅ 10000 " " " " eq_refl eq_refl
           ltac:(vm_compute; lia)).
Defined.

Lemma port_not_a_number_witness :
  @main cpython (<["PORT" := "80a"]> ∅) =
    Raises (OtherException "ValueError" (@int_error_str cpython "80a")).
Proof.
  apply (@port_not_a_number cpython (<["PORT" := "80a"]> ∅) "80a").
  - by vm_compute.
  - reflexivity.
  - right. exists "a"%char. split; [cbn; auto | repeat split; discriminate].
Defined.

Example port_empty :
  @main cpython (<["PORT" := ""]> ∅) =
    Raises (OtherException "ValueError" "invalid literal for int() with base 10: ''").
Proof. by vm_compute. Qed.

Lemma optional_field_passed_on_witness :
  (@post pydantic2 (constant_pipeline (Returns (VRef 1)) affirmations_two)
     Affirmations affirmation_body initial_state).1 =
    HttpResponse 200
      (JObj [("response", json_str "Here are some affirmations");
             ("affirmations", JList [json_str "I am calm"; json_str "I am strong"]);
             ("retrieved_documents_count", json_int 1)]).
Proof.
  exact (@optional_field_passed_on pydantic2
           (constant_pipeline (Returns (VRef 1)) affirmations_two) Affirmations
           "affirmations" affirmation_body initial_state _ _ 1%nat 2%nat 4%nat
           affirmations_two
           (<["affirmations" := VRef 4]>
              (<["response" := VAtom (AStr "Here are some affirmations")]>
              (<["retrieved_documents" := VRef 2]> ∅)))
           "Here are some affirmations" [VRef 3] ["I am calm"; "I am strong"]
           eq_refl eq_refl eq_refl eq_refl eq_refl eq_refl eq_refl eq_refl eq_refl).
Defined.
